(** * Text Mesh Creator: the operator of [src/operator.py]

    A shallow embedding of [TextMeshCreatorOperation] and proofs about it.

    The operator is an orchestration layer over the host application
    ([bpy]): every geometry operation is a host command.  The embedding
    therefore models a run as the sequence of host commands it issues,
    together with their arguments, and takes the host's answers (handles of
    new data blocks, the outcome of loading a font or of an export, the
    selection after a separation, bounding boxes) from an oracle that may
    depend on everything that happened before. *)

From Stdlib Require Import ZArith List Bool Lia Ascii String DecimalString.
From Stdlib Require Import PrimFloat.
Import ListNotations.

Open Scope string_scope.
Open Scope list_scope.

(** ** Python strings *)

Module PyStr.

(** [list(s)]: one string of length one per character. *)
Fixpoint chars (s : string) : list string :=
  match s with
  | EmptyString => []
  | String c rest => String c EmptyString :: chars rest
  end.

(** [sep.join(units)]. *)
Fixpoint join (sep : string) (units : list string) : string :=
  match units with
  | [] => EmptyString
  | [u] => u
  | u :: rest => (u ++ sep ++ join sep rest)%string
  end.

(** The scan of [s.split(sep)] for a non-empty [sep]: left to right,
    leftmost match first, matches do not overlap.  [skip] counts the
    characters of a separator just matched that are still to be passed
    over.  The head of the result is the unit under construction. *)
Fixpoint split_from (sep : string) (skip : nat) (s : string) : list string :=
  match s with
  | EmptyString => [EmptyString]
  | String c rest =>
      match skip with
      | S k => split_from sep k rest
      | O =>
          if prefix sep s
          then EmptyString :: split_from sep (String.length sep - 1) rest
          else match split_from sep 0 rest with
               | u :: units => String c u :: units
               | [] => [String c EmptyString]
               end
      end
  end.

(** [str.isspace] on the code points below 256. *)
Definition is_space (c : ascii) : bool :=
  let n := nat_of_ascii c in
  (((9 <=? n) && (n <=? 13)) || ((28 <=? n) && (n <=? 32))
   || (n =? 133) || (n =? 160))%nat.

Fixpoint lstrip (s : string) : string :=
  match s with
  | EmptyString => EmptyString
  | String c rest => if is_space c then lstrip rest else s
  end.

(** [rstrip], by structural recursion: a character is dropped when it is
    white space and nothing but white space follows it. *)
Fixpoint rstrip (s : string) : string :=
  match s with
  | EmptyString => EmptyString
  | String c rest =>
      match rstrip rest with
      | EmptyString => if is_space c then EmptyString else String c EmptyString
      | r => String c r
      end
  end.

(** [s.strip()]. *)
Definition strip (s : string) : string := rstrip (lstrip s).

(** [str(n)] for an [int]. *)
Definition of_int (n : Z) : string := NilZero.string_of_int (Z.to_int n).

(** Number of occurrences of the character [c] in [s]. *)
Fixpoint count (c : ascii) (s : string) : nat :=
  match s with
  | EmptyString => 0
  | String d rest => (if Ascii.eqb d c then 1 else 0) + count c rest
  end.

End PyStr.

(** ** Python floats ([float] is IEEE binary64, as is [PrimFloat.float]) *)

Module PyFloat.

(** [math.radians(x)]: the C library multiplies by the constant pi/180. *)
Definition radians (x : float) : float :=
  (x * (0x1.921fb54442d18p+1 / 180))%float.

(** [math.isclose(a, b, rel_tol=rel_tol)], with the default [abs_tol=0.0]:
    equal values are close, an infinity is close only to itself, and
    otherwise the difference is compared with the tolerance scaled by
    either argument. *)
Definition isclose (a b rel_tol : float) : bool :=
  if (a =? b)%float then true
  else if is_infinity a || is_infinity b then false
  else
    let diff := abs (b - a)%float in
    (diff <=? abs (rel_tol * b))%float
    || (diff <=? abs (rel_tol * a))%float
    || (diff <=? 0)%float.

(** The literal [1e-5], rounded to the nearest binary64 value. *)
Definition rel_tol_1e_5 : float := 0x1.4f8b588e368f1p-17%float.

End PyFloat.

(** ** Exceptions and results *)

Inductive exn : Type :=
| RuntimeError (msg : string)
| IndexError
| KeyError (key : string)
| ValueError
| UnboundLocalError (name : string)
| OtherError (name : string).

Inductive result (A : Type) : Type :=
| Ok (a : A)
| Raise (e : exn).
Arguments Ok {A} a.
Arguments Raise {A} e.

(** ** Host handles, as imported from [bpy.types] *)

Definition VectorFont := nat.
Definition TextCurve := nat.
Definition Mesh := nat.
Definition Object := nat.

(** What a new object wraps ([object_data]). *)
Inductive data : Type :=
| CurveData (c : TextCurve)
| MeshData (m : Mesh).

(** Where an attribute assignment goes: a curve, an object, or
    [object.modifiers[index]]. *)
Inductive target : Type :=
| OfCurve (c : TextCurve)
| OfObject (o : Object)
| OfModifier (o : Object) (index : nat).

Inductive value : Type :=
| VStr (s : string)
| VFloat (x : float)
| VFont (f : VectorFont)
| VInts (l : list Z).

(** ** Host commands

    One constructor per command the operator issues, with the arguments the
    operator chooses and, where the operator uses it, the host's answer.
    The keyword arguments of [export_scene.fbx] other than [filepath] are
    constants of the source and are not recorded. *)
Inductive event : Type :=
| FontsLoad (filepath : string) (outcome : result VectorFont)
| CurvesNew (type name : string) (c : TextCurve)
| ObjectsNew (name : string) (object_data : data) (o : Object)
| EvaluatedDepsgraphGet
| EvaluatedGet (o : Object) (o_eval : Object)
| MeshesNewFromObject (o_eval : Object) (m : Mesh)
| SetAttr (on : target) (attr : string) (v : value)
| Link (o : Object)
| Unlink (o : Object)
| OriginSet (selected_editable_objects : list Object)
| ModifierAdd (object : Object) (type : string)
| ModifierApply (object : Object) (index : nat)
| MeshSeparate (selected_editable_objects : list Object) (type : string)
| ExportFbx (selected_objects : list Object) (filepath : string)
            (outcome : result unit)
| ObjectDelete (selected_objects : list Object)
| Print (e : exn)
| Report (level message : string).

Definition trace := list event.

(** ** The host

    Every answer may depend on the whole history of commands.  Loading a
    font and exporting may raise; the other commands are taken to return
    normally.  [mathutils] vectors and matrices are the host's own (single
    precision) and stay abstract. *)
Record Host : Type := {
  vec : Type;
  mat : Type;
  Vector0 : vec;
  Vector3 : float * float * float -> vec;
  vadd : vec -> vec -> vec;
  smul : float -> vec -> vec;
  matmul : mat -> vec -> vec;
  vec_y : vec -> float;
  path_join : string -> string -> string;
  fonts_load : trace -> string -> result VectorFont;
  curves_new : trace -> TextCurve;
  objects_new : trace -> Object;
  evaluated_get : trace -> Object -> Object;
  meshes_new_from_object : trace -> Object -> Mesh;
  selected_objects : trace -> list Object;
  bound_box : trace -> Object -> list (float * float * float);
  matrix_world : trace -> Object -> mat;
  export_scene_fbx : trace -> list Object -> string -> result unit
}.

(** ** Computations: the history is read, the commands issued are collected *)

Definition M (A : Type) : Type := trace -> result A * trace.

Definition ret {A : Type} (a : A) : M A := fun _ => (Ok a, []).

Definition raise {A : Type} (e : exn) : M A := fun _ => (Raise e, []).

Definition bind {A B : Type} (m : M A) (f : A -> M B) : M B :=
  fun t =>
    match m t with
    | (Ok a, d) => let (r, d') := f a (t ++ d) in (r, d ++ d')
    | (Raise e, d) => (Raise e, d)
    end.

Notation "x <- m ;; k" := (bind m (fun x => k))
  (at level 61, m at next level, right associativity).
Notation "m ;;; k" := (bind m (fun _ => k))
  (at level 61, right associativity).

(** Issue a command that returns nothing. *)
Definition emit (e : event) : M unit := fun _ => (Ok tt, [e]).

(** Read a property of the host. *)
Definition ask {A : Type} (q : trace -> A) : M A := fun t => (Ok (q t), []).

(** Issue a command that returns a handle. *)
Definition create {A : Type} (q : trace -> A) (ev : A -> event) : M A :=
  fun t => (Ok (q t), [ev (q t)]).

(** Issue a command that may raise. *)
Definition call {A : Type} (q : trace -> result A) (ev : result A -> event)
  : M A :=
  fun t => (q t, [ev (q t)]).

(** [try: body  except <those e with handler e = Some h>: h  finally: final].
    The [finally] block runs on every path: after a normal end of [body],
    after a handler, and while an exception that no handler takes is
    propagating.  An exception of [final] replaces the pending outcome. *)
Definition try_except_finally {A : Type}
    (body : M A) (handler : exn -> option (M A)) (final : M unit) : M A :=
  fun t =>
    let '(r, d) :=
      match body t with
      | (Ok a, d) => (Ok a, d)
      | (Raise e, d) =>
          match handler e with
          | Some h => let (r', d') := h (t ++ d) in (r', d ++ d')
          | None => (Raise e, d)
          end
      end in
    match final (t ++ d) with
    | (Ok _, d') => (r, d ++ d')
    | (Raise e', d') => (Raise e', d ++ d')
    end.

(** [try: body  except <...>: h], without a [finally] block. *)
Definition try_except {A : Type} (body : M A) (handler : exn -> option (M A))
  : M A :=
  try_except_finally body handler (ret tt).

(** [l[i]]. *)
Definition index {A : Type} (l : list A) (i : nat) : M A :=
  match nth_error l i with
  | Some a => ret a
  | None => raise IndexError
  end.

(** [d[key]] for a dict with string keys. *)
Fixpoint lookup (d : list (string * string)) (key : string) : M string :=
  match d with
  | [] => raise (KeyError key)
  | (k, v) :: rest => if String.eqb k key then ret v else lookup rest key
  end.

(** Reading a local variable that may not have been assigned. *)
Definition local {A : Type} (name : string) (v : option A) : M A :=
  match v with
  | Some a => ret a
  | None => raise (UnboundLocalError name)
  end.

(** [s.split(sep)]. *)
Definition split (s sep : string) : M (list string) :=
  match sep with
  | EmptyString => raise ValueError
  | _ => ret (PyStr.split_from sep 0 s)
  end.

(** ** The request: [TextMeshCreatorProperties]

    The class is declared in [properties.py]; the fields are the ones the
    operator reads, typed by the way it uses them. *)
Module properties.
Record TextMeshCreatorProperties : Type := {
strings : string;
separate_by : string;
font_path : string;
thickness : float;
horizontal_alignment : string;
vertical_alignment : string;
character_spacing : float;
word_spacing : float;
rotation_x : float;
rotation_y : float;
rotation_z : float;
scale_x : float;
scale_y : float;
scale_z : float;
center_to_origin : bool;
use_decimate : bool;
decimate_ratio : float;
separate_by_loose_parts : bool;
is_preview : bool;
export_path : string;
increment_from : Z
}.
End properties.
Import properties.

(** What [execute] returns: [{"FINISHED"}] or [{"CANCELLED"}]. *)
Inductive status : Type := FINISHED | CANCELLED.

(** The local variable [font] of [execute] after lines 164-169: the run was
    cancelled, or it goes on with [font] assigned or still unassigned. *)
Inductive font_stage : Type :=
| Cancel
| Proceed (font : option VectorFont).

(** ** The operator: [TextMeshCreatorOperation] *)

Module TextMeshCreatorOperation.
Section Operation.

Variable host : Host.

(** [separators], lines 20-24. *)
Definition separators : list (string * string) :=
[("SPACE", " "); ("TAB", String (ascii_of_nat 9) EmptyString)].

(** The handler of [except RuntimeError as e], lines 64-66. *)
Definition export_handler (number : Z) (e : exn) : option (M Z) :=
match e with
| RuntimeError _ => Some (emit (Print e) ;;; ret number)
| _ => None
end.

(** [export_object], lines 26-71. *)
Definition export_object (number : Z) (name dirpath : string)
(object : list Object) : M Z :=
try_except_finally
(let filename := (PyStr.of_int number ++ "-" ++ name ++ ".fbx")%string in
 let filepath := path_join host dirpath filename in
 call (fun t => export_scene_fbx host t object filepath)
      (ExportFbx object filepath) ;;;
 ret (number + 1)%Z)
(export_handler number)
(emit (ObjectDelete object)).

(** Lines 85-86: the centre of the eight corners of the bounding box,
taken to world space, as the host shows them after history [t]. *)
Definition origin (t : trace) (object : Object) : vec host :=
let center :=
smul host 0.125%float
  (fold_left (vadd host) (map (Vector3 host) (bound_box host t object))
     (Vector0 host)) in
matmul host (matrix_world host t object) center.

(** The test of line 89, negated: the candidate is kept. *)
Definition keeps (t : trace) (object : Object) (extrude : float) : bool :=
PyFloat.isclose (vec_y host (origin t object)) extrude PyFloat.rel_tol_1e_5.

(** The loop of lines 81-100; [objects] is the list built so far. *)
Fixpoint loose_parts_loop (extrude : float) (separated_objects : list Object)
(objects : list Object) : M (list Object) :=
match separated_objects with
| [] => ret objects
| object :: rest =>
  keep <- ask (fun t => keeps t object extrude) ;;
  if negb keep
  then
    emit (Unlink object) ;;;
    loose_parts_loop extrude rest objects
  else
    emit (ModifierAdd object "SOLIDIFY") ;;;
    emit (SetAttr (OfModifier object 0) "thickness"
            (VFloat (extrude * 2)%float)) ;;;
    emit (ModifierApply object 0) ;;;
    loose_parts_loop extrude rest (objects ++ [object])
end.

(** [separate_by_loose_parts], lines 73-102. *)
Definition separate_by_loose_parts (object : Object) (extrude : float)
: M (list Object) :=
emit (MeshSeparate [object] "LOOSE") ;;;
selected <- ask (selected_objects host) ;;
loose_parts_loop extrude (object :: selected) [].

(** Lines 105-147 of [create_object]: the mesh object of one unit. *)
Definition synthesize (text : string) (font : VectorFont)
(props : TextMeshCreatorProperties) : M Object :=
font_curve <- create (curves_new host) (CurvesNew "FONT" "Font Curve") ;;
emit (SetAttr (OfCurve font_curve) "body" (VStr text)) ;;;
emit (SetAttr (OfCurve font_curve) "font" (VFont font)) ;;;
emit (SetAttr (OfCurve font_curve) "extrude" (VFloat (thickness props))) ;;;
emit (SetAttr (OfCurve font_curve) "align_x"
      (VStr (horizontal_alignment props))) ;;;
emit (SetAttr (OfCurve font_curve) "align_y"
      (VStr (vertical_alignment props))) ;;;
emit (SetAttr (OfCurve font_curve) "space_character"
      (VFloat (character_spacing props))) ;;;
emit (SetAttr (OfCurve font_curve) "space_word"
      (VFloat (word_spacing props))) ;;;
font_object_o <- create (objects_new host)
                 (ObjectsNew "OBJECT" (CurveData font_curve)) ;;
emit (Link font_object_o) ;;;
emit EvaluatedDepsgraphGet ;;;
object_eval <- create (fun t => evaluated_get host t font_object_o)
               (EvaluatedGet font_object_o) ;;
font_mesh <- create (fun t => meshes_new_from_object host t object_eval)
             (MeshesNewFromObject object_eval) ;;
font_object_f <- create (objects_new host)
                 (ObjectsNew text (MeshData font_mesh)) ;;
emit (SetAttr (OfObject font_object_f) "location" (VInts [0; 0; 0]%Z)) ;;;
emit (SetAttr (OfObject font_object_f) "rotation_euler.x"
      (VFloat (PyFloat.radians (rotation_x props)))) ;;;
emit (SetAttr (OfObject font_object_f) "rotation_euler.y"
      (VFloat (PyFloat.radians (rotation_y props)))) ;;;
emit (SetAttr (OfObject font_object_f) "rotation_euler.z"
      (VFloat (PyFloat.radians (rotation_z props)))) ;;;
emit (SetAttr (OfObject font_object_f) "scale.x" (VFloat (scale_x props))) ;;;
emit (SetAttr (OfObject font_object_f) "scale.y" (VFloat (scale_y props))) ;;;
emit (SetAttr (OfObject font_object_f) "scale.z" (VFloat (scale_z props))) ;;;
emit (Link font_object_f) ;;;
emit (Unlink font_object_o) ;;;
emit (OriginSet [font_object_f]) ;;;
(if center_to_origin props
 then emit (SetAttr (OfObject font_object_f) "location" (VInts [0; 0; 0]%Z))
 else ret tt) ;;;
(if use_decimate props
 then
 emit (ModifierAdd font_object_f "DECIMATE") ;;;
 emit (SetAttr (OfModifier font_object_f 0) "ratio"
         (VFloat (decimate_ratio props))) ;;;
 emit (ModifierApply font_object_f 0)
 else ret tt) ;;;
ret font_object_f.

(** [create_object], lines 104-157. *)
Definition create_object (number : Z) (text : string) (font : VectorFont)
(props : TextMeshCreatorProperties) : M Z :=
font_object_f <- synthesize text font props ;;
if properties.separate_by_loose_parts props
then
objects <- separate_by_loose_parts font_object_f (thickness props) ;;
if is_preview props
then ret number
else export_object number text (export_path props) objects
else
if is_preview props
then ret number
else export_object number text (export_path props) [font_object_f].

(** The handler of [except RuntimeError], lines 167-169. *)
Definition font_handler (e : exn) : option (M font_stage) :=
match e with
| RuntimeError _ =>
  Some (emit (Report "ERROR" "Font file not found or invalid format.") ;;;
        ret Cancel)
| _ => None
end.

(** Lines 164-169 of [execute]. *)
Definition load_font (props : TextMeshCreatorProperties) : M font_stage :=
if negb (String.eqb (PyStr.strip (font_path props)) "")
then
try_except
  (font <- call (fun t => fonts_load host t (font_path props))
             (FontsLoad (font_path props)) ;;
   ret (Proceed (Some font)))
  font_handler
else ret (Proceed None).

(** Lines 171-178 of [execute]. *)
Definition partition (separate_by strings : string) : M (list string) :=
if String.eqb separate_by "CHARACTER"
then ret (PyStr.chars strings)
else if negb (String.eqb separate_by "NONE")
then
sep <- lookup separators separate_by ;;
split strings sep
else ret [strings].

(** Lines 180-181 of [execute]. *)
Definition preview_truncate (is_preview : bool)
(characters : list string) : M (list string) :=
if is_preview
then first <- index characters 0 ;; ret [first]
else ret characters.

(** The loop of lines 183-184; the value is the counter after the loop. *)
Fixpoint process_units (font : option VectorFont)
(props : TextMeshCreatorProperties) (characters : list string)
(number : Z) : M Z :=
match characters with
| [] => ret number
| character :: rest =>
  f <- local "font" font ;;
  number' <- create_object number character f props ;;
  process_units font props rest number'
end.

(** [execute], lines 159-186. *)
Definition execute (props : TextMeshCreatorProperties) : M status :=
let number := increment_from props in
stage <- load_font props ;;
match stage with
| Cancel => ret CANCELLED
| Proceed font =>
  characters <- partition (separate_by props) (strings props) ;;
  characters <- preview_truncate (is_preview props) characters ;;
  process_units font props characters number ;;;
  ret FINISHED
end.

End Operation.
End TextMeshCreatorOperation.

(** ** Observations on a sequence of commands *)

(** The units synthesis started on: the bodies given to text curves. *)
Definition unit_of (e : event) : list string :=
  match e with
  | SetAttr (OfCurve _) attr (VStr text) =>
      if String.eqb attr "body" then [text] else []
  | _ => []
  end.

Definition processed_units (d : trace) : list string := flat_map unit_of d.

(** The export calls, as file path and outcome. *)
Definition export_of (e : event) : list (string * result unit) :=
  match e with
  | ExportFbx _ filepath outcome => [(filepath, outcome)]
  | _ => []
  end.

Definition exports (d : trace) : list (string * result unit) :=
  flat_map export_of d.

(** The selections handed to [object.delete]. *)
Definition deletion_of (e : event) : list (list Object) :=
  match e with
  | ObjectDelete sel => [sel]
  | _ => []
  end.

Definition deletions (d : trace) : list (list Object) := flat_map deletion_of d.

(** The objects created. *)
Definition creation_of (e : event) : list Object :=
  match e with
  | ObjectsNew _ _ o => [o]
  | _ => []
  end.

Definition created_objects (d : trace) : list Object := flat_map creation_of d.

Definition succeeded {A : Type} (r : result A) : bool :=
  match r with Ok _ => true | Raise _ => false end.

(** Number of exports that succeeded, and that raised [RuntimeError]. *)
Definition successful_exports (d : trace) : nat :=
  List.length (filter (fun x => succeeded (snd x)) (exports d)).

Definition is_runtime_error {A : Type} (r : result A) : bool :=
  match r with Raise (RuntimeError _) => true | _ => false end.

Definition failed_exports (d : trace) : nat :=
  List.length (filter (fun x => is_runtime_error (snd x)) (exports d)).

(** A computation that always ends normally, starts synthesis on the units
    [us], creates [n] objects, and neither exports nor deletes. *)
Definition yields {A : Type} (m : M A) (us : list string) (n : nat) : Prop :=
  forall t : trace,
  exists a d,
    m t = (Ok a, d)
    /\ processed_units d = us /\ exports d = [] /\ deletions d = []
    /\ List.length (created_objects d) = n.

(** The name of the file a unit is exported to: ["%s-%s.fbx" % (number, name)]. *)
Definition file_name (number : Z) (name : string) : string :=
  (PyStr.of_int number ++ "-" ++ name ++ ".fbx")%string.

(** A request with the preview switch set to [b], all else the same. *)
Definition with_preview (b : bool) (props : TextMeshCreatorProperties)
  : TextMeshCreatorProperties := {|
  strings := strings props;
  separate_by := separate_by props;
  font_path := font_path props;
  thickness := thickness props;
  horizontal_alignment := horizontal_alignment props;
  vertical_alignment := vertical_alignment props;
  character_spacing := character_spacing props;
  word_spacing := word_spacing props;
  rotation_x := rotation_x props;
  rotation_y := rotation_y props;
  rotation_z := rotation_z props;
  scale_x := scale_x props;
  scale_y := scale_y props;
  scale_z := scale_z props;
  center_to_origin := center_to_origin props;
  use_decimate := use_decimate props;
  decimate_ratio := decimate_ratio props;
  properties.separate_by_loose_parts := properties.separate_by_loose_parts props;
  is_preview := b;
  export_path := export_path props;
  increment_from := increment_from props
|}.

(** A host whose export either succeeds or raises [RuntimeError]. *)
Definition recoverable (host : Host) : Prop :=
  forall (t : trace) (sel : list Object) (p : string),
    match export_scene_fbx host t sel p with
    | Ok _ | Raise (RuntimeError _) => True
    | Raise _ => False
    end.

(** ** Further observations *)

(** The selections handed to the export. *)
Definition export_selection_of (e : event) : list (list Object) :=
  match e with
  | ExportFbx sel _ _ => [sel]
  | _ => []
  end.

Definition export_selections (d : trace) : list (list Object) :=
  flat_map export_selection_of d.

(** The objects unlinked from the scene collection. *)
Definition unlink_of (e : event) : list Object :=
  match e with
  | Unlink o => [o]
  | _ => []
  end.

Definition unlinks (d : trace) : list Object := flat_map unlink_of d.

(** The paths fonts were loaded from. *)
Definition font_load_of (e : event) : list string :=
  match e with
  | FontsLoad p _ => [p]
  | _ => []
  end.

Definition font_loads (d : trace) : list string := flat_map font_load_of d.

(** The fonts given to text curves. *)
Definition curve_font_of (e : event) : list VectorFont :=
  match e with
  | SetAttr (OfCurve _) attr (VFont f) =>
      if String.eqb attr "font" then [f] else []
  | _ => []
  end.

Definition curve_fonts (d : trace) : list VectorFont := flat_map curve_font_of d.

(** The objects a modifier was added to, and those one was applied on. *)
Definition modifier_add_of (e : event) : list Object :=
  match e with
  | ModifierAdd o _ => [o]
  | _ => []
  end.

Definition modifier_adds (d : trace) : list Object := flat_map modifier_add_of d.

Definition modifier_apply_of (e : event) : list Object :=
  match e with
  | ModifierApply o _ => [o]
  | _ => []
  end.

Definition modifier_applies (d : trace) : list Object :=
  flat_map modifier_apply_of d.

(** The messages reported to the user, with their level. *)
Definition report_of (e : event) : list (string * string) :=
  match e with
  | Report level message => [(level, message)]
  | _ => []
  end.

Definition reports (d : trace) : list (string * string) := flat_map report_of d.

(** The exceptions printed, and the [RuntimeError]s exports raised. *)
Definition print_of (e : event) : list exn :=
  match e with
  | Print x => [x]
  | _ => []
  end.

Definition prints (d : trace) : list exn := flat_map print_of d.

Definition export_error_of (e : event) : list exn :=
  match e with
  | ExportFbx _ _ (Raise (RuntimeError msg)) => [RuntimeError msg]
  | _ => []
  end.

Definition export_errors (d : trace) : list exn := flat_map export_error_of d.

(** The elements of [l] at the places where [mask] is [true]. *)
Fixpoint select {A : Type} (mask : list bool) (l : list A) : list A :=
  match mask, l with
  | b :: mask', x :: l' => if b then x :: select mask' l' else select mask' l'
  | _, _ => []
  end.

(** The commands of one turn of the loop of lines 81-100, by the outcome
    of the test of line 89: lines 93-99 for a candidate that is kept,
    line 90 for one that is not. *)
Definition candidate_commands (extrude : float) (keep : bool) (c : Object)
  : trace :=
  if keep
  then [ModifierAdd c "SOLIDIFY";
        SetAttr (OfModifier c 0) "thickness" (VFloat (extrude * 2)%float);
        ModifierApply c 0]
  else [Unlink c].

(** The commands of the whole loop, given the outcome of each test. *)
Fixpoint loose_part_commands (extrude : float) (mask : list bool)
    (cs : list Object) : trace :=
  match mask, cs with
  | keep :: mask', c :: cs' =>
      candidate_commands extrude keep c ++ loose_part_commands extrude mask' cs'
  | _, _ => []
  end.

(** The outcome of the test of line 89 for each candidate, each at its
    turn: after the commands of the candidates before it. *)
Fixpoint loose_part_mask (host : Host) (extrude : float) (cs : list Object)
    (t : trace) : list bool :=
  match cs with
  | [] => []
  | c :: rest =>
      let keep := TextMeshCreatorOperation.keeps host t c extrude in
      keep :: loose_part_mask host extrude rest
                (t ++ candidate_commands extrude keep c)
  end.

(** The paths of a sequence of exports that starts at [number], given how
    each export ended: the number moves on after a success only. *)
Fixpoint numbered_paths (host : Host) (dir : string) (number : Z)
    (units : list string) (outcomes : list (result unit)) : list string :=
  match units, outcomes with
  | u :: units', o :: outcomes' =>
      path_join host dir (file_name number u)
      :: numbered_paths host dir (if succeeded o then (number + 1)%Z else number)
           units' outcomes'
  | _, _ => []
  end.

(** A property of the commands issued that holds however the computation
    ends, and properties that survive sequencing. *)
Definition always {A : Type} (P : trace -> Prop) (m : M A) : Prop :=
  forall t : trace, P (snd (m t)).

Definition additive (P : trace -> Prop) : Prop :=
  P [] /\ forall d d', P d -> P d' -> P (d ++ d').

(** ** A concrete host, to run the operator on

    Paths are joined as [posixpath.join] does.  Handles are the length of
    the history, so they are fresh.  Fonts load except from [bad_font];
    exports succeed except to the paths in [bad_exports], which raise
    [RuntimeError].  A separation selects one new object.  An object with an
    even handle sits at height 0.5, one with an odd handle at height 0. *)
Module Demo.

Fixpoint ends_with_slash (s : string) : bool :=
  match s with
  | EmptyString => false
  | String c EmptyString => Ascii.eqb c "/"%char
  | String _ rest => ends_with_slash rest
  end.

Definition posix_join (a b : string) : string :=
  if prefix "/" b then b
  else if String.eqb a "" || ends_with_slash a then (a ++ b)%string
  else (a ++ "/" ++ b)%string.

Definition vec3 : Type := float * float * float.

Definition add3 (u v : vec3) : vec3 :=
  let '(a, b, c) := u in
  let '(x, y, z) := v in ((a + x)%float, (b + y)%float, (c + z)%float).

Definition scale3 (k : float) (v : vec3) : vec3 :=
  let '(x, y, z) := v in ((k * x)%float, (k * y)%float, (k * z)%float).

Definition box (o : Object) : list vec3 :=
  let h := if Nat.even o then 0.5%float else 0%float in
  let lo := (h - 1)%float in
  let hi := (h + 1)%float in
  [ ((-1)%float, lo, (-1)%float); ((-1)%float, lo, 1%float);
    ((-1)%float, hi, 1%float); ((-1)%float, hi, (-1)%float);
    (1%float, lo, (-1)%float); (1%float, lo, 1%float);
    (1%float, hi, 1%float); (1%float, hi, (-1)%float) ].

Definition host (bad_font : string) (bad_exports : list string) : Host := {|
  vec := vec3;
  mat := vec3;
  Vector0 := (0%float, 0%float, 0%float);
  Vector3 := fun v => v;
  vadd := add3;
  smul := scale3;
  matmul := add3;
  vec_y := fun v => snd (fst v);
  path_join := posix_join;
  fonts_load := fun t p =>
    if String.eqb p bad_font
    then Raise (RuntimeError "cannot read font")
    else Ok (List.length t);
  curves_new := fun t => List.length t;
  objects_new := fun t => List.length t;
  evaluated_get := fun t o => List.length t;
  meshes_new_from_object := fun t o => List.length t;
  selected_objects := fun t => [List.length t];
  bound_box := fun t o => box o;
  matrix_world := fun t o => (0%float, 0%float, 0%float);
  export_scene_fbx := fun t sel p =>
    if existsb (String.eqb p) bad_exports
    then Raise (RuntimeError "cannot write file")
    else Ok tt
|}.

(** A second host, where every object sits at [height], loading a font
    raises [font_error] if there is one, and every export raises
    [export_error] if there is one. *)
Definition uniform (height : float) (font_error export_error : option exn)
    : Host := {|
  vec := vec3;
  mat := vec3;
  Vector0 := (0%float, 0%float, 0%float);
  Vector3 := fun v => v;
  vadd := add3;
  smul := scale3;
  matmul := add3;
  vec_y := fun v => snd (fst v);
  path_join := posix_join;
  fonts_load := fun t p =>
    match font_error with
    | Some e => Raise e
    | None => Ok (List.length t)
    end;
  curves_new := fun t => List.length t;
  objects_new := fun t => List.length t;
  evaluated_get := fun t o => List.length t;
  meshes_new_from_object := fun t o => List.length t;
  selected_objects := fun t => [List.length t];
  bound_box := fun t o =>
    [ (0%float, height, 0%float); (0%float, height, 0%float);
      (0%float, height, 0%float); (0%float, height, 0%float);
      (0%float, height, 0%float); (0%float, height, 0%float);
      (0%float, height, 0%float); (0%float, height, 0%float) ];
  matrix_world := fun t o => (0%float, 0%float, 0%float);
  export_scene_fbx := fun t sel p =>
    match export_error with
    | Some e => Raise e
    | None => Ok tt
    end
|}.

(** A third host: as [host] with no bad font, but the exports to the paths
    in [bad_exports] raise [export_error], whatever it is. *)
Definition breaking (bad_exports : list string) (export_error : exn) : Host := {|
  vec := vec3;
  mat := vec3;
  Vector0 := (0%float, 0%float, 0%float);
  Vector3 := fun v => v;
  vadd := add3;
  smul := scale3;
  matmul := add3;
  vec_y := fun v => snd (fst v);
  path_join := posix_join;
  fonts_load := fun t p => Ok (List.length t);
  curves_new := fun t => List.length t;
  objects_new := fun t => List.length t;
  evaluated_get := fun t o => List.length t;
  meshes_new_from_object := fun t o => List.length t;
  selected_objects := fun t => [List.length t];
  bound_box := fun t o => box o;
  matrix_world := fun t o => (0%float, 0%float, 0%float);
  export_scene_fbx := fun t sel p =>
    if existsb (String.eqb p) bad_exports
    then Raise export_error
    else Ok tt
|}.

Definition props (text mode font : string) (loose preview : bool) (start : Z)
    : TextMeshCreatorProperties := {|
  strings := text;
  separate_by := mode;
  font_path := font;
  thickness := 0.5%float;
  horizontal_alignment := "CENTER";
  vertical_alignment := "CENTER";
  character_spacing := 1%float;
  word_spacing := 1%float;
  rotation_x := 90%float;
  rotation_y := 0%float;
  rotation_z := 0%float;
  scale_x := 1%float;
  scale_y := 1%float;
  scale_z := 1%float;
  center_to_origin := true;
  use_decimate := false;
  decimate_ratio := 1%float;
  properties.separate_by_loose_parts := loose;
  is_preview := preview;
  export_path := "/out";
  increment_from := start
|}.

End Demo.

Example split_ex1 : PyStr.split_from " " 0 "a  b" = ["a"; ""; "b"].
Proof. reflexivity. Qed.
Example split_ex2 : PyStr.split_from "ab" 0 "aabcab" = ["a"; "c"; ""].
Proof. reflexivity. Qed.
Example strip_ex : PyStr.strip "  a b	 " = "a b".
Proof. reflexivity. Qed.
Example of_int_ex : (PyStr.of_int 0, PyStr.of_int 12, PyStr.of_int (-3)) = ("0", "12", "-3").
Proof. reflexivity. Qed.

Import TextMeshCreatorOperation.

(** * Runs on the concrete host *)

Example isclose_equal : PyFloat.isclose 0.5 0.5 PyFloat.rel_tol_1e_5 = true.
Proof. reflexivity. Qed.

Example isclose_near :
  PyFloat.isclose 1 0x1.00001p+0 PyFloat.rel_tol_1e_5 = true.
Proof. reflexivity. Qed.

Example isclose_far : PyFloat.isclose 0 0.5 PyFloat.rel_tol_1e_5 = false.
Proof. reflexivity. Qed.

Example isclose_infinity :
  PyFloat.isclose infinity 1 PyFloat.rel_tol_1e_5 = false.
Proof. reflexivity. Qed.

Example posix_join_ex :
  (Demo.posix_join "/out" "0-A.fbx", Demo.posix_join "/out/" "0-A.fbx",
   Demo.posix_join "" "0-A.fbx")
  = ("/out/0-A.fbx", "/out/0-A.fbx", "0-A.fbx").
Proof. reflexivity. Qed.

(** Text "A B" split on spaces, counting from 5. *)
Example run_space :
  let run := execute (Demo.host "" [])
               (Demo.props "A B" "SPACE" "a.ttf" false false 5) [] in
  fst run = Ok FINISHED
  /\ processed_units (snd run) = ["A"; "B"]
  /\ exports (snd run) = [("/out/5-A.fbx", Ok tt); ("/out/6-B.fbx", Ok tt)].
Proof. vm_compute. repeat split. Qed.

(** A failed export leaves the counter where it was: the next unit takes
    the same number. *)
Example run_failed_export :
  exports (snd (execute (Demo.host "" ["/out/0-A.fbx"])
                  (Demo.props "AB" "CHARACTER" "a.ttf" false false 0) []))
  = [("/out/0-A.fbx", Raise (RuntimeError "cannot write file"));
     ("/out/0-B.fbx", Ok tt)].
Proof. vm_compute. reflexivity. Qed.

(** One unit with the separation on: the object itself is kept and
    thickened, the part split off is at the wrong height and is unlinked,
    and the kept part alone is exported and then deleted. *)
Example run_loose_parts :
  separate_by_loose_parts (Demo.host "" []) 14 0.5%float []
  = (Ok [14],
     [MeshSeparate [14] "LOOSE";
      ModifierAdd 14 "SOLIDIFY";
      SetAttr (OfModifier 14 0) "thickness" (VFloat 1%float);
      ModifierApply 14 0;
      Unlink 1]).
Proof. vm_compute. reflexivity. Qed.

(** An unknown separator mode is a [KeyError]. *)
Example run_unknown_mode :
  fst (execute (Demo.host "" []) (Demo.props "A" "COMMA" "a.ttf" false false 0) [])
  = Raise (KeyError "COMMA").
Proof. reflexivity. Qed.

(** * Proofs *)

(** ** Strings *)

Section SplitOnCharacter.

Variable a : ascii.
Local Abbreviation sep := (String a EmptyString).

Lemma split_from_step (c : ascii) (rest : string) :
  PyStr.split_from sep 0 (String c rest) =
  if Ascii.eqb a c
  then EmptyString :: PyStr.split_from sep 0 rest
  else match PyStr.split_from sep 0 rest with
       | u :: units => String c u :: units
       | [] => [String c EmptyString]
       end.
Proof.
  cbn [PyStr.split_from prefix String.length Nat.sub].
  destruct (ascii_dec a c) as [->|ne].
  - rewrite Ascii.eqb_refl. destruct rest; reflexivity.
  - apply Ascii.eqb_neq in ne. rewrite ne. reflexivity.
Qed.

Lemma split_from_not_nil (s : string) : PyStr.split_from sep 0 s <> [].
Proof.
  destruct s as [|c rest]; [discriminate|].
  rewrite split_from_step.
  destruct (Ascii.eqb a c); [discriminate|].
  destruct (PyStr.split_from sep 0 rest); discriminate.
Qed.

Lemma join_split_from (s : string) :
  PyStr.join sep (PyStr.split_from sep 0 s) = s.
Proof.
  induction s as [|c rest IH]; [reflexivity|].
  rewrite split_from_step.
  pose proof (split_from_not_nil rest) as nn.
  destruct (Ascii.eqb a c) eqn:ac.
  - apply Ascii.eqb_eq in ac. subst c.
    destruct (PyStr.split_from sep 0 rest) as [|u units]; [contradiction|].
    change (PyStr.join sep (EmptyString :: u :: units))
      with (String a (PyStr.join sep (u :: units))).
    now rewrite IH.
  - destruct (PyStr.split_from sep 0 rest) as [|u units]; [contradiction|].
    destruct units as [|v units]; cbn in *; now rewrite IH.
Qed.

Lemma split_from_drops_separator (s : string) :
  Forall (fun u => PyStr.count a u = 0) (PyStr.split_from sep 0 s).
Proof.
  induction s as [|c rest IH]; [repeat constructor|].
  rewrite split_from_step.
  pose proof (split_from_not_nil rest) as nn.
  destruct (Ascii.eqb a c) eqn:ac.
  - constructor; [reflexivity|exact IH].
  - destruct (PyStr.split_from sep 0 rest) as [|u units]; [contradiction|].
    inversion IH as [|? ? Hu Hunits]; subst.
    constructor; [|exact Hunits].
    cbn. rewrite Ascii.eqb_sym, ac. exact Hu.
Qed.

Lemma split_from_length (s : string) :
  List.length (PyStr.split_from sep 0 s) = S (PyStr.count a s).
Proof.
  induction s as [|c rest IH]; [reflexivity|].
  rewrite split_from_step.
  pose proof (split_from_not_nil rest) as nn.
  cbn [PyStr.count]. rewrite (Ascii.eqb_sym c a).
  destruct (Ascii.eqb a c).
  - cbn. now rewrite IH.
  - destruct (PyStr.split_from sep 0 rest) as [|u units]; [contradiction|].
    exact IH.
Qed.

End SplitOnCharacter.

Lemma chars_length_one (s : string) :
  Forall (fun u => String.length u = 1) (PyStr.chars s).
Proof. induction s; constructor; [reflexivity|assumption]. Qed.

Lemma chars_count (s : string) :
  List.length (PyStr.chars s) = String.length s.
Proof. induction s; cbn; congruence. Qed.

Lemma join_chars (s : string) : PyStr.join EmptyString (PyStr.chars s) = s.
Proof.
  induction s as [|c rest IH]; [reflexivity|].
  cbn [PyStr.chars].
  destruct rest as [|c' rest']; [reflexivity|].
  cbn [PyStr.chars] in *.
  change (String c (PyStr.join "" (String c' "" :: PyStr.chars rest'))
          = String c (String c' rest')).
  now rewrite IH.
Qed.

(** C1. Partitioning is a function of the text and the mode, and keeps the
    order.  By character: the units are the characters, one each, and
    concatenated they give the text back.  None: one unit, the text.  Space
    and tab: the text is split on the literal, which no unit contains; there
    is one unit more than there are separators, so empty units stay; joined
    with the separator the units give the text back. *)
Theorem partition_reconstructs (text : string) (t : trace) :
  let tab := String (ascii_of_nat 9) EmptyString in
  (partition "CHARACTER" text t = (Ok (PyStr.chars text), [])
   /\ Forall (fun u => String.length u = 1) (PyStr.chars text)
   /\ List.length (PyStr.chars text) = String.length text
   /\ PyStr.join "" (PyStr.chars text) = text)
  /\ partition "NONE" text t = (Ok [text], [])
  /\ (partition "SPACE" text t = (Ok (PyStr.split_from " " 0 text), [])
      /\ PyStr.join " " (PyStr.split_from " " 0 text) = text
      /\ Forall (fun u => PyStr.count " " u = 0) (PyStr.split_from " " 0 text)
      /\ List.length (PyStr.split_from " " 0 text) = S (PyStr.count " " text))
  /\ (partition "TAB" text t = (Ok (PyStr.split_from tab 0 text), [])
      /\ PyStr.join tab (PyStr.split_from tab 0 text) = text
      /\ Forall (fun u => PyStr.count (ascii_of_nat 9) u = 0)
           (PyStr.split_from tab 0 text)
      /\ List.length (PyStr.split_from tab 0 text)
         = S (PyStr.count (ascii_of_nat 9) text)).
Proof.
  intro tab. repeat split.
  - apply chars_length_one.
  - apply chars_count.
  - apply join_chars.
  - apply join_split_from.
  - apply split_from_drops_separator.
  - apply split_from_length.
  - apply join_split_from.
  - apply split_from_drops_separator.
  - apply split_from_length.
Qed.

(** ** Sequencing *)

Lemma bind_ok {A B : Type} (m : M A) (f : A -> M B) (t d d' : trace)
    (a : A) (r : result B) :
  m t = (Ok a, d) -> f a (t ++ d) = (r, d') -> bind m f t = (r, d ++ d').
Proof. intros Hm Hf. unfold bind. now rewrite Hm, Hf. Qed.

Lemma bind_unfold {A B : Type} (m : M A) (f : A -> M B) (t : trace) :
  bind m f t =
  match m t with
  | (Ok a, d) => let (r, d') := f a (t ++ d) in (r, d ++ d')
  | (Raise e, d) => (Raise e, d)
  end.
Proof. reflexivity. Qed.

Lemma bind_raise {A B : Type} (m : M A) (f : A -> M B) (t d : trace) (e : exn) :
  m t = (Raise e, d) -> bind m f t = (Raise e, d).
Proof. intros Hm. unfold bind. now rewrite Hm. Qed.

Lemma exports_app (d d' : trace) : exports (d ++ d') = exports d ++ exports d'.
Proof. apply flat_map_app. Qed.

Lemma deletions_app (d d' : trace) :
  deletions (d ++ d') = deletions d ++ deletions d'.
Proof. apply flat_map_app. Qed.

Lemma created_objects_app (d d' : trace) :
  created_objects (d ++ d') = created_objects d ++ created_objects d'.
Proof. apply flat_map_app. Qed.

Lemma processed_units_app (d d' : trace) :
  processed_units (d ++ d') = processed_units d ++ processed_units d'.
Proof. apply flat_map_app. Qed.

(** ** Export *)

Section ExportFacts.

Variable host : Host.

(** The three ways a call of [export_object] can go. *)
Lemma export_object_run (number : Z) (name dirpath : string)
    (object : list Object) (t : trace) :
  let filepath :=
    path_join host dirpath (PyStr.of_int number ++ "-" ++ name ++ ".fbx")%string in
  let outcome := export_scene_fbx host t object filepath in
  export_object host number name dirpath object t =
  match outcome with
  | Ok _ =>
      (Ok (number + 1)%Z, [ExportFbx object filepath outcome; ObjectDelete object])
  | Raise (RuntimeError msg) =>
      (Ok number,
       [ExportFbx object filepath outcome; Print (RuntimeError msg);
        ObjectDelete object])
  | Raise e => (Raise e, [ExportFbx object filepath outcome; ObjectDelete object])
  end.
Proof.
  intros filepath outcome.
  unfold export_object, try_except_finally, bind, call, emit, ret.
  fold filepath. fold outcome.
  destruct outcome as [u|e]; [reflexivity|].
  destruct e; reflexivity.
Qed.

End ExportFacts.

(** ** Loose parts *)

Section LoosePartFacts.

Variable host : Host.

(** The commands one candidate causes. *)
Local Abbreviation candidate_events keep c extrude :=
  (if keep : bool
   then [ModifierAdd c "SOLIDIFY";
         SetAttr (OfModifier c 0) "thickness" (VFloat (extrude * 2)%float);
         ModifierApply c 0]
   else [Unlink c]).

(** One turn of the loop. *)
Lemma loose_parts_loop_cons (extrude : float) (c : Object) (rest acc : list Object)
    (t : trace) :
  loose_parts_loop host extrude (c :: rest) acc t =
  let keep := keeps host t c extrude in
  let d_c := candidate_events keep c extrude in
  let (r, d) :=
    loose_parts_loop host extrude rest (if keep then acc ++ [c] else acc)
      (t ++ d_c) in
  (r, d_c ++ d).
Proof.
  cbn [loose_parts_loop]. unfold bind, ask, emit.
  rewrite app_nil_r.
  destruct (keeps host t c extrude); cbn [negb app].
  - rewrite <- !app_assoc. cbn [app].
    destruct (loose_parts_loop host extrude rest (acc ++ [c]) _); reflexivity.
  - destruct (loose_parts_loop host extrude rest acc _); reflexivity.
Qed.

(** The loop never raises; what it adds to the list depends on the
    candidates and the history only, and is taken from the candidates. *)
Lemma loose_parts_loop_run (extrude : float) (cs : list Object) :
  forall (acc : list Object) (t : trace),
  exists kept d,
    loose_parts_loop host extrude cs acc t = (Ok (acc ++ kept), d)
    /\ loose_parts_loop host extrude cs [] t = (Ok kept, d)
    /\ incl kept cs
    /\ processed_units d = [] /\ exports d = [] /\ deletions d = []
    /\ created_objects d = [].
Proof.
  induction cs as [|c rest IH]; intros acc t.
  - exists [], []. cbn. rewrite app_nil_r. repeat split. apply incl_refl.
  - rewrite !loose_parts_loop_cons. cbv zeta.
    destruct (keeps host t c extrude).
    + destruct (IH (acc ++ [c]) (t ++ candidate_events true c extrude))
        as (kept & d & Hacc & Hnil & Hincl & Hu & He & Hd & Hc).
      destruct (IH ([] ++ [c]) (t ++ candidate_events true c extrude))
        as (kept' & d' & Hacc' & Hnil' & _).
      rewrite Hnil in Hnil'. inversion Hnil'; subst kept' d'.
      rewrite Hacc, Hacc'.
      exists (c :: kept), (candidate_events true c extrude ++ d).
      rewrite <- app_assoc. cbn [app].
      repeat split; try (rewrite ?processed_units_app, ?exports_app,
                          ?deletions_app, ?created_objects_app; cbn; assumption).
      * intros x [<-|Hx]; [now left|right; now apply Hincl].
    + destruct (IH acc (t ++ candidate_events false c extrude))
        as (kept & d & Hacc & Hnil & Hincl & Hu & He & Hd & Hc).
      rewrite Hacc, Hnil.
      exists kept, (candidate_events false c extrude ++ d).
      repeat split; try (cbn; assumption).
      * intros x Hx. right. now apply Hincl.
Qed.

(** Processing [xs ++ ys] is processing [xs], then [ys]. *)
Lemma loose_parts_loop_app (extrude : float) (xs ys : list Object) :
  forall (acc : list Object) (t : trace),
  loose_parts_loop host extrude (xs ++ ys) acc t =
  bind (loose_parts_loop host extrude xs acc)
       (loose_parts_loop host extrude ys) t.
Proof.
  induction xs as [|c rest IH]; intros acc t.
  - cbn. unfold bind, ret. rewrite app_nil_r.
    destruct (loose_parts_loop host extrude ys acc t); reflexivity.
  - rewrite <- app_comm_cons.
    unfold bind at 1. rewrite !loose_parts_loop_cons. cbv zeta.
    rewrite IH. unfold bind.
    destruct (loose_parts_loop host extrude rest _ _) as [[kept|e] d];
      [|reflexivity].
    rewrite <- app_assoc.
    destruct (loose_parts_loop host extrude ys kept _) as [r d'].
    now rewrite app_assoc.
Qed.

(** [separate_by_loose_parts] never raises and neither exports nor deletes. *)
Lemma separate_by_loose_parts_run (object : Object) (extrude : float) (t : trace) :
  exists objects d,
    separate_by_loose_parts host object extrude t = (Ok objects, d)
    /\ processed_units d = [] /\ exports d = [] /\ deletions d = []
    /\ created_objects d = [].
Proof.
  unfold separate_by_loose_parts, bind, emit, ask.
  rewrite app_nil_r. cbn [app].
  destruct (loose_parts_loop_run extrude
              (object :: selected_objects host (t ++ [MeshSeparate [object] "LOOSE"]))
              [] (t ++ [MeshSeparate [object] "LOOSE"]))
    as (kept & d & Hrun & _ & _ & Hu & He & Hd & Hc).
  rewrite Hrun. cbn [app] in *.
  exists kept, (MeshSeparate [object] "LOOSE" :: d).
  repeat split; cbn; assumption.
Qed.

End LoosePartFacts.

(** C3. Take any candidate [c] of the separation: the object itself or one
    of the objects selected afterwards, at any place in that list.  When its
    turn comes, the y coordinate of the centre of its bounding box, taken to
    world space, is compared with the extrusion by [isclose] at relative
    tolerance 1e-5.  If they are close, the commands issued for [c] are:
    add a SOLIDIFY modifier, set its thickness to twice the extrusion, apply
    it; and [c] enters the returned list at its place.  If not, the one
    command issued for [c] is to unlink it, and it is left out.  With no
    second occurrence of [c] among the candidates, [c] is returned exactly
    when the test succeeds. *)
Theorem loose_part_filter (host : Host) (object : Object) (extrude : float)
    (t : trace) (pre post : list Object) (c : Object) :
  object :: selected_objects host (t ++ [MeshSeparate [object] "LOOSE"])
    = pre ++ c :: post ->
  exists kept_pre d_pre kept_post d_post,
    let h := (t ++ [MeshSeparate [object] "LOOSE"]) ++ d_pre in
    let keep :=
      PyFloat.isclose (vec_y host (origin host h c)) extrude
        PyFloat.rel_tol_1e_5 in
    let d_c :=
      if keep
      then [ModifierAdd c "SOLIDIFY";
            SetAttr (OfModifier c 0) "thickness" (VFloat (extrude * 2)%float);
            ModifierApply c 0]
      else [Unlink c] in
    let objects := kept_pre ++ (if keep then [c] else []) ++ kept_post in
    loose_parts_loop host extrude pre [] (t ++ [MeshSeparate [object] "LOOSE"])
      = (Ok kept_pre, d_pre)
    /\ loose_parts_loop host extrude post [] (h ++ d_c) = (Ok kept_post, d_post)
    /\ separate_by_loose_parts host object extrude t
       = (Ok objects, MeshSeparate [object] "LOOSE" :: d_pre ++ d_c ++ d_post)
    /\ incl kept_pre pre /\ incl kept_post post
    /\ (~ In c pre -> ~ In c post -> (In c objects <-> keep = true)).
Proof.
  intros Hcs.
  set (h0 := t ++ [MeshSeparate [object] "LOOSE"]) in *.
  destruct (loose_parts_loop_run host extrude pre [] h0)
    as (kept_pre & d_pre & Hpre & _ & Hipre & _).
  cbn [app] in Hpre.
  set (keep := keeps host (h0 ++ d_pre) c extrude).
  set (d_c := if keep
              then [ModifierAdd c "SOLIDIFY";
                    SetAttr (OfModifier c 0) "thickness"
                      (VFloat (extrude * 2)%float);
                    ModifierApply c 0]
              else [Unlink c]).
  destruct (loose_parts_loop_run host extrude post
              (if keep then kept_pre ++ [c] else kept_pre)
              ((h0 ++ d_pre) ++ d_c))
    as (kept_post & d_post & Hacc & Hpost & Hipost & _).
  exists kept_pre, d_pre, kept_post, d_post.
  cbv zeta. fold h0. unfold keeps in keep. fold keep. fold d_c.
  split; [exact Hpre|]. split; [exact Hpost|].
  split; [|split; [exact Hipre|split; [exact Hipost|]]].
  - unfold separate_by_loose_parts, bind at 1, emit.
    unfold bind at 1, ask. rewrite app_nil_r. fold h0. rewrite Hcs.
    rewrite loose_parts_loop_app. unfold bind at 1. rewrite Hpre.
    rewrite loose_parts_loop_cons. cbv zeta.
    change (keeps host (h0 ++ d_pre) c extrude) with keep. fold d_c.
    rewrite Hacc. cbn [app].
    f_equal. f_equal.
    destruct keep; now rewrite <- ?app_assoc.
  - intros Hnpre Hnpost. rewrite !in_app_iff. split.
    + intros [H|[H|H]].
      * exfalso. apply Hnpre, Hipre, H.
      * destruct keep; [reflexivity|destruct H].
      * exfalso. apply Hnpost, Hipost, H.
    + intros ->. right. left. now left.
Qed.

(** ** One unit *)

Section UnitFacts.

Variable host : Host.

(** Synthesis never raises; it starts on exactly the unit given, creates two
    objects and neither exports nor deletes. *)
Lemma yields_ret {A : Type} (a : A) : yields (ret a) [] 0.
Proof. intros t. exists a, []. repeat split. Qed.

Lemma yields_emit (e : event) :
  export_of e = [] -> deletion_of e = [] ->
  yields (emit e) (unit_of e) (List.length (creation_of e)).
Proof.
  intros He Hd t. exists tt, [e]. unfold emit.
  unfold processed_units, exports, deletions, created_objects.
  cbn [flat_map]. rewrite He, Hd, !app_nil_r. repeat split.
Qed.

Lemma yields_create {A : Type} (q : trace -> A) (ev : A -> event) :
  (forall a, export_of (ev a) = []) -> (forall a, deletion_of (ev a) = []) ->
  forall us n,
  (forall a, unit_of (ev a) = us) ->
  (forall a, List.length (creation_of (ev a)) = n) ->
  yields (create q ev) us n.
Proof.
  intros He Hd us n Hu Hn t. exists (q t), [ev (q t)]. unfold create.
  unfold processed_units, exports, deletions, created_objects.
  cbn [flat_map]. rewrite He, Hd, Hu, !app_nil_r, Hn. repeat split.
Qed.

Lemma yields_bind {A B : Type} (m : M A) (f : A -> M B)
    (us us' : list string) (n n' : nat) :
  yields m us n -> (forall a, yields (f a) us' n') ->
  yields (bind m f) (us ++ us') (n + n').
Proof.
  intros Hm Hf t.
  destruct (Hm t) as (a & d & Hrun & Hu & He & Hd & Hn).
  destruct (Hf a (t ++ d)) as (b & d' & Hrun' & Hu' & He' & Hd' & Hn').
  exists b, (d ++ d'). rewrite bind_unfold, Hrun, Hrun'.
  rewrite processed_units_app, exports_app, deletions_app, created_objects_app,
    length_app.
  rewrite Hu, Hu', He, He', Hd, Hd', Hn, Hn'. repeat split.
Qed.

Lemma yields_if {A : Type} (b : bool) (m m' : M A) (us : list string) (n : nat) :
  yields m us n -> yields m' us n -> yields (if b then m else m') us n.
Proof. now destruct b. Qed.

Lemma yields_as {A : Type} (m : M A) (us us' : list string) (n n' : nat) :
  yields m us n -> us = us' -> n = n' -> yields m us' n'.
Proof. now intros H <- <-. Qed.

Lemma synthesize_yields (text : string) (font : VectorFont)
    (props : TextMeshCreatorProperties) :
  yields (synthesize host text font props) [text] 2.
Proof.
  unfold synthesize.
  eapply yields_as.
  - repeat first
      [ apply yields_ret
      | eapply yields_as;
        [apply yields_emit; reflexivity
        |cbv; reflexivity|cbv; reflexivity]
      | eapply yields_as;
        [eapply yields_create; intros; cbv; reflexivity
        |reflexivity|reflexivity]
      | apply yields_if
      | eapply yields_bind; [|intros ?] ].
  - reflexivity.
  - reflexivity.
Qed.

Lemma synthesize_run (text : string) (font : VectorFont)
    (props : TextMeshCreatorProperties) (t : trace) :
  exists o d,
    synthesize host text font props t = (Ok o, d)
    /\ processed_units d = [text] /\ exports d = [] /\ deletions d = []
    /\ List.length (created_objects d) = 2.
Proof. apply synthesize_yields. Qed.

(** The selection handed to the export, and the commands issued to get it. *)
Local Abbreviation selection loose o objects d_sep :=
  (if loose : bool then (objects, d_sep) else ([o], @nil event)).

(** [create_object] is synthesis, then the separation if it is asked for,
    then the export unless the run is a preview. *)
Lemma create_object_run (number : Z) (text : string) (font : VectorFont)
    (props : TextMeshCreatorProperties) (t : trace) :
  exists o d_syn objects d_sep,
    synthesize host text font props t = (Ok o, d_syn)
    /\ separate_by_loose_parts host o (thickness props) (t ++ d_syn)
       = (Ok objects, d_sep)
    /\ processed_units d_syn = [text] /\ exports d_syn = []
    /\ deletions d_syn = []
    /\ processed_units d_sep = [] /\ exports d_sep = [] /\ deletions d_sep = []
    /\ create_object host number text font props t =
       let sel := selection (properties.separate_by_loose_parts props)
                    o objects d_sep in
       if is_preview props
       then (Ok number, d_syn ++ snd sel)
       else
         let (r, d_exp) :=
           export_object host number text (export_path props) (fst sel)
             (t ++ d_syn ++ snd sel) in
         (r, d_syn ++ snd sel ++ d_exp).
Proof.
  destruct (synthesize_run text font props t)
    as (o & d_syn & Hsyn & Hu & He & Hd & _).
  destruct (separate_by_loose_parts_run host o (thickness props) (t ++ d_syn))
    as (objects & d_sep & Hsep & Hu' & He' & Hd' & _).
  exists o, d_syn, objects, d_sep.
  repeat (split; [assumption|]).
  unfold create_object, bind at 1. rewrite Hsyn.
  destruct (properties.separate_by_loose_parts props); cbv zeta; cbn [fst snd].
  - unfold bind. rewrite Hsep.
    destruct (is_preview props).
    + unfold ret. now rewrite app_nil_r.
    + rewrite <- app_assoc.
      destruct (export_object host number text (export_path props) objects _).
      reflexivity.
  - rewrite !app_nil_r.
    destruct (is_preview props).
    + unfold ret. now rewrite app_nil_r.
    + destruct (export_object host number text (export_path props) [o] _).
      reflexivity.
Qed.

End UnitFacts.

(** ** The counter *)

Lemma successful_exports_app (d d' : trace) :
  successful_exports (d ++ d') = successful_exports d + successful_exports d'.
Proof.
  unfold successful_exports. now rewrite exports_app, filter_app, length_app.
Qed.

Lemma failed_exports_app (d d' : trace) :
  failed_exports (d ++ d') = failed_exports d + failed_exports d'.
Proof.
  unfold failed_exports. now rewrite exports_app, filter_app, length_app.
Qed.

Lemma no_exports_counts (d : trace) :
  exports d = [] -> successful_exports d = 0 /\ failed_exports d = 0.
Proof.
  intros H. unfold successful_exports, failed_exports. now rewrite H.
Qed.

Section CounterFacts.

Variable host : Host.

(** What one unit does to the counter, on a host whose exports succeed or
    fail recoverably. *)
Lemma create_object_counter (number : Z) (text : string) (font : VectorFont)
    (props : TextMeshCreatorProperties) (t : trace) :
  recoverable host ->
  exists n' d,
    create_object host number text font props t = (Ok n', d)
    /\ n' = (number + Z.of_nat (successful_exports d))%Z
    /\ List.length (exports d) = successful_exports d + failed_exports d.
Proof.
  intros Hrec.
  destruct (create_object_run host number text font props t)
    as (o & d_syn & objects & d_sep & _ & _ & _ & He & _ & _ & He' & _ & Hrun).
  rewrite Hrun. cbv zeta.
  set (sel := if properties.separate_by_loose_parts props
              then (objects, d_sep) else ([o], [])).
  assert (Hsel : exports (snd sel) = [])
    by (unfold sel; destruct (properties.separate_by_loose_parts props);
        [exact He'|reflexivity]).
  destruct (no_exports_counts _ He) as [Hs Hf].
  destruct (no_exports_counts _ Hsel) as [Hs' Hf'].
  destruct (is_preview props).
  - exists number, (d_syn ++ snd sel).
    rewrite successful_exports_app, failed_exports_app, exports_app.
    rewrite He, Hsel, Hs, Hs', Hf, Hf'. cbn. split; [reflexivity|].
    split; [lia|reflexivity].
  - rewrite export_object_run. cbv zeta.
    specialize (Hrec (t ++ d_syn ++ snd sel) (fst sel)
                  (path_join host (export_path props)
                     (PyStr.of_int number ++ "-" ++ text ++ ".fbx")%string)).
    destruct (export_scene_fbx host _ _ _) as [u|e] eqn:Hout.
    + eexists; eexists. split; [reflexivity|].
      rewrite !successful_exports_app, !failed_exports_app, !exports_app.
      rewrite He, Hsel, Hs, Hs', Hf, Hf'. cbn. split; [lia|reflexivity].
    + destruct e; try contradiction.
      eexists; eexists. split; [reflexivity|].
      rewrite !successful_exports_app, !failed_exports_app, !exports_app.
      rewrite He, Hsel, Hs, Hs', Hf, Hf'. cbn. split; [lia|reflexivity].
Qed.

(** One turn of the loop over the units. *)
Lemma process_units_cons (font : VectorFont) (props : TextMeshCreatorProperties)
    (u : string) (rest : list string) (number : Z) (t : trace) :
  process_units host (Some font) props (u :: rest) number t =
  bind (create_object host number u font props)
       (process_units host (Some font) props rest) t.
Proof.
  cbn [process_units local]. unfold bind at 1, ret.
  rewrite app_nil_r.
  destruct (bind _ _ t). reflexivity.
Qed.

(** With [font] unassigned the first unit is never reached. *)
Lemma process_units_unbound (props : TextMeshCreatorProperties)
    (u : string) (rest : list string) (number : Z) (t : trace) :
  process_units host None props (u :: rest) number t
  = (Raise (UnboundLocalError "font"), []).
Proof. reflexivity. Qed.

(** Processing [pre ++ post] is processing [pre], then [post] from the
    counter [pre] ended with. *)
Lemma process_units_app (font : option VectorFont)
    (props : TextMeshCreatorProperties) (pre post : list string) :
  forall (number : Z) (t : trace),
  process_units host font props (pre ++ post) number t =
  bind (process_units host font props pre number)
       (process_units host font props post) t.
Proof.
  induction pre as [|u rest IH]; intros number t.
  - cbn. unfold bind, ret. rewrite app_nil_r.
    destruct (process_units host font props post number t); reflexivity.
  - rewrite <- app_comm_cons. destruct font as [f|].
    + rewrite process_units_cons.
      rewrite (bind_unfold (process_units host (Some f) props (u :: rest) number)).
      rewrite process_units_cons. rewrite !(bind_unfold (create_object _ _ _ _ _)).
      destruct (create_object host number u f props t) as [[n1|e] d1];
        [|reflexivity].
      rewrite IH. unfold bind.
      destruct (process_units host (Some f) props rest n1 (t ++ d1))
        as [[n2|e] d2]; [|reflexivity].
      rewrite <- app_assoc.
      destruct (process_units host (Some f) props post n2 _) as [r d3].
      now rewrite app_assoc.
    + reflexivity.
Qed.

(** The counter over a whole loop. *)
Lemma process_units_counter (font : VectorFont)
    (props : TextMeshCreatorProperties) (characters : list string) :
  recoverable host ->
  forall (number : Z) (t : trace),
  exists n' d,
    process_units host (Some font) props characters number t = (Ok n', d)
    /\ n' = (number + Z.of_nat (successful_exports d))%Z
    /\ List.length (exports d) = successful_exports d + failed_exports d.
Proof.
  intros Hrec.
  induction characters as [|u rest IH]; intros number t.
  - exists number, []. cbn. repeat split. lia.
  - rewrite process_units_cons. unfold bind.
    destruct (create_object_counter number u font props t Hrec)
      as (n1 & d1 & Hrun & Hn1 & Hlen1).
    rewrite Hrun.
    destruct (IH n1 (t ++ d1)) as (n2 & d2 & Hrun2 & Hn2 & Hlen2).
    rewrite Hrun2. exists n2, (d1 ++ d2).
    rewrite successful_exports_app, failed_exports_app, exports_app, length_app.
    repeat split; lia.
Qed.

End CounterFacts.

(** ** The driver *)

Section DriverFacts.

Variable host : Host.

(** The four ways the font stage can go. *)
Lemma load_font_run (props : TextMeshCreatorProperties) (t : trace) :
  load_font host props t =
  if String.eqb (PyStr.strip (font_path props)) ""
  then (Ok (Proceed None), [])
  else
    let outcome := fonts_load host t (font_path props) in
    match outcome with
    | Ok f => (Ok (Proceed (Some f)), [FontsLoad (font_path props) outcome])
    | Raise (RuntimeError msg) =>
        (Ok Cancel,
         [FontsLoad (font_path props) outcome;
          Report "ERROR" "Font file not found or invalid format."])
    | Raise e => (Raise e, [FontsLoad (font_path props) outcome])
    end.
Proof.
  unfold load_font.
  destruct (String.eqb (PyStr.strip (font_path props)) ""); [reflexivity|].
  cbn [negb]. cbv zeta.
  unfold try_except, try_except_finally, bind, call, emit, ret.
  destruct (fonts_load host t (font_path props)) as [f|e]; [reflexivity|].
  destruct e; reflexivity.
Qed.

(** Partitioning issues no command and does not look at the history. *)
Lemma partition_pure (separate_by strings : string) (t : trace) :
  partition separate_by strings t = (fst (partition separate_by strings []), []).
Proof.
  unfold partition.
  destruct (String.eqb separate_by "CHARACTER"); [reflexivity|].
  destruct (String.eqb separate_by "NONE"); [reflexivity|].
  cbn [negb]. unfold separators, lookup.
  destruct (String.eqb "SPACE" separate_by); [reflexivity|].
  destruct (String.eqb "TAB" separate_by); reflexivity.
Qed.

Lemma preview_truncate_pure (is_preview : bool) (characters : list string)
    (t : trace) :
  preview_truncate is_preview characters t
  = (fst (preview_truncate is_preview characters []), []).
Proof.
  unfold preview_truncate.
  destruct is_preview; [|reflexivity].
  destruct characters; reflexivity.
Qed.

(** [execute], stage by stage. *)
Lemma execute_run (props : TextMeshCreatorProperties) (t : trace) :
  execute host props t =
  match load_font host props t with
  | (Raise e, d0) => (Raise e, d0)
  | (Ok Cancel, d0) => (Ok CANCELLED, d0)
  | (Ok (Proceed font), d0) =>
      match fst (partition (separate_by props) (strings props) []) with
      | Raise e => (Raise e, d0)
      | Ok all_units =>
          match fst (preview_truncate (is_preview props) all_units []) with
          | Raise e => (Raise e, d0)
          | Ok characters =>
              match process_units host font props characters
                      (increment_from props) (t ++ d0) with
              | (Ok _, d) => (Ok FINISHED, d0 ++ d)
              | (Raise e, d) => (Raise e, d0 ++ d)
              end
          end
      end
  end.
Proof.
  unfold execute. cbv zeta. rewrite bind_unfold.
  destruct (load_font host props t) as [[[|font]|e] d0];
    [unfold ret; now rewrite app_nil_r| |reflexivity].
  rewrite bind_unfold, partition_pure.
  destruct (fst (partition (separate_by props) (strings props) []))
    as [all_units|e]; [|now rewrite app_nil_r].
  rewrite bind_unfold, preview_truncate_pure.
  destruct (fst (preview_truncate (is_preview props) all_units []))
    as [characters|e]; [|now rewrite !app_nil_r].
  rewrite bind_unfold, !app_nil_r.
  destruct (process_units host font props characters (increment_from props)
              (t ++ d0)) as [[n|e] d]; [|reflexivity].
  unfold ret. cbn [app]. now rewrite app_nil_r.
Qed.

(** The only empty partition is that of the empty text by character. *)
Lemma partition_empty (separate_by strings : string) :
  fst (partition separate_by strings []) = Ok []
  <-> separate_by = "CHARACTER" /\ strings = "".
Proof.
  split.
  - unfold partition.
    destruct (String.eqb separate_by "CHARACTER") eqn:Hc.
    + apply String.eqb_eq in Hc. cbn.
      destruct strings; [now split|discriminate].
    + destruct (String.eqb separate_by "NONE"); [discriminate|].
      cbn [negb]. unfold separators, lookup.
      destruct (String.eqb "SPACE" separate_by);
        [cbn; intros H; inversion H as [H0];
         now apply split_from_not_nil in H0|].
      destruct (String.eqb "TAB" separate_by);
        [cbn; intros H; inversion H as [H0];
         now apply split_from_not_nil in H0|].
      discriminate.
  - intros [-> ->]. reflexivity.
Qed.

End DriverFacts.

(** ** Runs of one unit, by mode *)

Section ModeFacts.

Variable host : Host.

(** In a preview, a unit is synthesised and, if asked for, separated; the
    counter comes back unchanged and nothing is exported or deleted. *)
Lemma create_object_preview (number : Z) (text : string) (font : VectorFont)
    (props : TextMeshCreatorProperties) (t : trace) :
  is_preview props = true ->
  exists d,
    create_object host number text font props t = (Ok number, d)
    /\ processed_units d = [text] /\ exports d = [] /\ deletions d = [].
Proof.
  intros Hpre.
  destruct (create_object_run host number text font props t)
    as (o & d_syn & objects & d_sep & _ & _ & Hu & He & Hd & Hu' & He' & Hd'
        & Hrun).
  rewrite Hrun, Hpre. cbv zeta.
  eexists. split; [reflexivity|].
  rewrite processed_units_app, exports_app, deletions_app, Hu, He, Hd.
  destruct (properties.separate_by_loose_parts props); cbn [snd app];
    [rewrite Hu', He', Hd'|]; repeat split.
Qed.

(** Outside a preview, on a host whose exports all succeed, a unit ends with
    one export, to the file named after the counter and the unit, and the
    counter goes up by one. *)
Lemma create_object_success (number : Z) (text : string) (font : VectorFont)
    (props : TextMeshCreatorProperties) (t : trace) :
  is_preview props = false ->
  (forall t' sel p, export_scene_fbx host t' sel p = Ok tt) ->
  exists d,
    create_object host number text font props t = (Ok (number + 1)%Z, d)
    /\ processed_units d = [text]
    /\ exports d
       = [(path_join host (export_path props) (file_name number text), Ok tt)].
Proof.
  intros Hpre Hok.
  destruct (create_object_run host number text font props t)
    as (o & d_syn & objects & d_sep & _ & _ & Hu & He & Hd & Hu' & He' & Hd'
        & Hrun).
  rewrite Hrun, Hpre. cbv zeta.
  rewrite export_object_run. cbv zeta. rewrite Hok.
  eexists. split; [reflexivity|].
  rewrite !processed_units_app, !exports_app, Hu, He.
  destruct (properties.separate_by_loose_parts props); cbn [fst snd app];
    [rewrite Hu', He'|]; repeat split.
Qed.

(** The font stage neither processes, creates, exports nor deletes. *)
Lemma load_font_quiet (props : TextMeshCreatorProperties) (t : trace) :
  let d := snd (load_font host props t) in
  processed_units d = [] /\ created_objects d = [] /\ exports d = []
  /\ deletions d = [].
Proof.
  cbv zeta. rewrite load_font_run.
  destruct (String.eqb (PyStr.strip (font_path props)) ""); [repeat split|].
  cbv zeta.
  destruct (fonts_load host t (font_path props)) as [f|e]; [repeat split|].
  destruct e; repeat split.
Qed.

End ModeFacts.

(** * The properties *)

Lemma demo_recoverable (bad_font : string) (bad_exports : list string) :
  recoverable (Demo.host bad_font bad_exports).
Proof.
  intros t sel p. cbn. now destruct (existsb (String.eqb p) bad_exports).
Qed.

(** C2. A call of [export_object] with counter [number] returns
    [number + 1] when the host's export succeeds; when the export raises
    [RuntimeError] it prints the error and returns [number].  Hence, on a
    host whose exports succeed or fail in that way, the loop over the units
    always ends, the counter it ends with is the counter it started with
    plus the number of successful exports, failed exports adding nothing,
    and at every point between two units the counter is at least what it
    was before. *)
Theorem export_counter (host : Host) :
  (forall (number : Z) (name dirpath : string) (object : list Object)
          (t : trace),
      let outcome :=
        export_scene_fbx host t object
          (path_join host dirpath (file_name number name)) in
      let run := export_object host number name dirpath object t in
      match outcome with
      | Ok _ => fst run = Ok (number + 1)%Z
      | Raise (RuntimeError msg) =>
          fst run = Ok number /\ In (Print (RuntimeError msg)) (snd run)
      | Raise _ => True
      end)
  /\ (recoverable host ->
      forall (font : VectorFont) (props : TextMeshCreatorProperties)
             (pre post : list string) (number : Z) (t : trace),
      exists n1 d1 n2 d2,
        process_units host (Some font) props pre number t = (Ok n1, d1)
        /\ process_units host (Some font) props post n1 (t ++ d1) = (Ok n2, d2)
        /\ process_units host (Some font) props (pre ++ post) number t
           = (Ok n2, d1 ++ d2)
        /\ n1 = (number + Z.of_nat (successful_exports d1))%Z
        /\ n2 = (number + Z.of_nat (successful_exports (d1 ++ d2)))%Z
        /\ List.length (exports (d1 ++ d2))
           = successful_exports (d1 ++ d2) + failed_exports (d1 ++ d2)
        /\ (number <= n1 <= n2)%Z).
Proof.
  split.
  - intros number name dirpath object t. cbv zeta.
    rewrite export_object_run. cbv zeta. unfold file_name.
    destruct (export_scene_fbx host t object _) as [u|e]; [reflexivity|].
    destruct e; try exact I. split; [reflexivity|]. cbn. auto.
  - intros Hrec font props pre post number t.
    destruct (process_units_counter host font props pre Hrec number t)
      as (n1 & d1 & Hrun1 & Hn1 & Hlen1).
    destruct (process_units_counter host font props post Hrec n1 (t ++ d1))
      as (n2 & d2 & Hrun2 & Hn2 & Hlen2).
    exists n1, d1, n2, d2.
    rewrite process_units_app, bind_unfold, Hrun1, Hrun2.
    rewrite successful_exports_app, failed_exports_app, exports_app, length_app.
    repeat split; lia.
Qed.

Lemma export_counter_witness :
  recoverable (Demo.host "" ["/out/0-A.fbx"])
  /\ exists n d,
       process_units (Demo.host "" ["/out/0-A.fbx"]) (Some 0)
         (Demo.props "A B" "SPACE" "a.ttf" false false 0) ["A"; "B"] 0 []
       = (Ok n, d)
       /\ n = (0 + Z.of_nat (successful_exports d))%Z.
Proof.
  split; [apply demo_recoverable|].
  destruct (proj2 (export_counter (Demo.host "" ["/out/0-A.fbx"]))
              (demo_recoverable "" ["/out/0-A.fbx"]) 0
              (Demo.props "A B" "SPACE" "a.ttf" false false 0)
              ["A"] ["B"] 0%Z [])
    as (n1 & d1 & n2 & d2 & _ & _ & Hrun & _ & Hn2 & _).
  exists n2, (d1 ++ d2). split; [exact Hrun|exact Hn2].
Defined.

(** C4. Whatever the export does -- succeed, raise [RuntimeError], raise
    anything else -- [export_object] issues the deletion of the objects it
    was given, once, as its last command, after the export was tried. *)
Theorem export_cleanup_always (host : Host) (number : Z) (name dirpath : string)
    (object : list Object) (t : trace) :
  let filepath := path_join host dirpath (file_name number name) in
  let outcome := export_scene_fbx host t object filepath in
  exists r d,
    export_object host number name dirpath object t
    = (r, ExportFbx object filepath outcome :: d ++ [ObjectDelete object])
    /\ deletions d = [] /\ exports d = []
    /\ r = match outcome with
           | Ok _ => Ok (number + 1)%Z
           | Raise (RuntimeError _) => Ok number
           | Raise e => Raise e
           end.
Proof.
  cbv zeta. rewrite export_object_run. cbv zeta. unfold file_name.
  destruct (export_scene_fbx host t object _) as [u|e].
  - eexists; exists []. repeat split.
  - destruct e;
      [eexists; exists [Print (RuntimeError msg)]; repeat split
      |eexists; exists []; repeat split ..].
Qed.

(** C5. With an empty font path and one unit to process, [execute] stops
    with [UnboundLocalError]: the variable [font] was never assigned, and
    the call of [create_object] reads it.  No command reaches the host, so
    no text curve gets any font. *)
Theorem blank_font_unbound (host : Host) (t : trace) :
  execute host (Demo.props "A" "NONE" "" false false 0) t
  = (Raise (UnboundLocalError "font"), []).
Proof. reflexivity. Qed.

(** The same for every blank font path and every non-empty partition. *)
Lemma blank_font_unbound_general (host : Host)
    (props : TextMeshCreatorProperties) (t : trace) (u : string)
    (rest : list string) :
  PyStr.strip (font_path props) = "" ->
  fst (partition (separate_by props) (strings props) []) = Ok (u :: rest) ->
  execute host props t = (Raise (UnboundLocalError "font"), []).
Proof.
  intros Hblank Hpart.
  rewrite execute_run, load_font_run, Hblank, Hpart. cbn [String.eqb].
  destruct (is_preview props); reflexivity.
Qed.

(** C6. With a font path that is not blank and a load that raises
    [RuntimeError], [execute] reports the error and returns CANCELLED.  The
    load and the report are the only commands: no unit is processed, no
    object is created, nothing is exported. *)
Theorem font_failure_cancels (host : Host) (props : TextMeshCreatorProperties)
    (t : trace) (msg : string) :
  PyStr.strip (font_path props) <> "" ->
  fonts_load host t (font_path props) = Raise (RuntimeError msg) ->
  let d := [FontsLoad (font_path props) (Raise (RuntimeError msg));
            Report "ERROR" "Font file not found or invalid format."] in
  execute host props t = (Ok CANCELLED, d)
  /\ processed_units d = [] /\ created_objects d = [] /\ exports d = [].
Proof.
  intros Hpath Hload. cbv zeta.
  rewrite execute_run, load_font_run.
  apply String.eqb_neq in Hpath. rewrite Hpath. cbv zeta. rewrite Hload.
  repeat split.
Qed.

Lemma font_failure_cancels_witness :
  execute (Demo.host "bad.ttf" [])
    (Demo.props "AB" "CHARACTER" "bad.ttf" false false 0) []
  = (Ok CANCELLED,
     [FontsLoad "bad.ttf" (Raise (RuntimeError "cannot read font"));
      Report "ERROR" "Font file not found or invalid format."]).
Proof.
  apply (font_failure_cancels (Demo.host "bad.ttf" [])
           (Demo.props "AB" "CHARACTER" "bad.ttf" false false 0) []
           "cannot read font").
  - discriminate.
  - reflexivity.
Defined.

(** C7. In a preview run, synthesis starts on at most one unit, and that
    unit is the first of the partition; no export is called and no object
    is deleted. *)
Theorem preview_single_unit (host : Host) (props : TextMeshCreatorProperties)
    (t : trace) :
  is_preview props = true ->
  let d := snd (execute host props t) in
  exports d = [] /\ deletions d = []
  /\ (processed_units d = []
      \/ exists first rest,
           fst (partition (separate_by props) (strings props) [])
           = Ok (first :: rest)
           /\ processed_units d = [first]).
Proof.
  intros Hpre. cbv zeta. rewrite execute_run.
  destruct (load_font_quiet host props t) as (Hu0 & _ & He0 & Hd0).
  destruct (load_font host props t) as [[[|font]|e] d0]; cbn [snd] in *;
    [now auto| |now auto].
  destruct (fst (partition (separate_by props) (strings props) []))
    as [all_units|e]; [|now auto].
  rewrite Hpre.
  destruct all_units as [|first rest]; [now auto|].
  cbn [preview_truncate index nth_error bind ret fst app].
  destruct font as [f|]; [|cbn; rewrite app_nil_r; now auto].
  rewrite process_units_cons, bind_unfold.
  destruct (create_object_preview host (increment_from props) first f props
              (t ++ d0) Hpre) as (d & Hrun & Hu & He & Hd).
  rewrite Hrun. cbn [process_units ret snd].
  rewrite !app_nil_r, exports_app, deletions_app, processed_units_app.
  rewrite He0, Hd0, Hu0, He, Hd, Hu.
  repeat split. right. exists first, rest. now split.
Qed.

Lemma preview_single_unit_witness :
  let d := snd (execute (Demo.host "" [])
                  (Demo.props "AB" "CHARACTER" "a.ttf" true true 0) []) in
  exports d = [] /\ deletions d = [] /\ processed_units d = ["A"].
Proof.
  cbv zeta.
  destruct (preview_single_unit (Demo.host "" [])
              (Demo.props "AB" "CHARACTER" "a.ttf" true true 0) [] eq_refl)
    as (He & Hd & _).
  split; [exact He|]. split; [exact Hd|reflexivity].
Defined.

(** C9. A preview run whose partition is empty -- which happens for the
    empty text split by character and in no other case -- and which gets
    past the font stage (the path is blank, or the font loads) stops with
    [IndexError] at the access to the first unit: no unit is processed and
    no object is created. *)
Theorem preview_empty_index_error (host : Host)
    (props : TextMeshCreatorProperties) (t : trace) :
  is_preview props = true ->
  fst (partition (separate_by props) (strings props) []) = Ok [] ->
  (PyStr.strip (font_path props) = ""
   \/ exists f, fonts_load host t (font_path props) = Ok f) ->
  (separate_by props = "CHARACTER" /\ strings props = "")
  /\ exists d,
       execute host props t = (Raise IndexError, d)
       /\ processed_units d = [] /\ created_objects d = [] /\ exports d = [].
Proof.
  intros Hpre Hpart Hfont.
  split; [now apply partition_empty|].
  rewrite execute_run, load_font_run, Hpart, Hpre.
  destruct (String.eqb (PyStr.strip (font_path props)) "") eqn:Hblank.
  - exists []. repeat split.
  - destruct Hfont as [Hb|[f Hf]].
    + rewrite Hb in Hblank. discriminate.
    + cbv zeta. rewrite Hf. eexists. split; [reflexivity|]. repeat split.
Qed.

Lemma preview_empty_index_error_witness :
  fst (execute (Demo.host "" []) (Demo.props "" "CHARACTER" "a.ttf" false true 0) [])
  = Raise IndexError.
Proof.
  destruct (preview_empty_index_error (Demo.host "" [])
              (Demo.props "" "CHARACTER" "a.ttf" false true 0) []
              eq_refl eq_refl (or_intror (ex_intro _ 0 eq_refl)))
    as (_ & d & Hrun & _).
  now rewrite Hrun.
Defined.

Lemma loose_part_filter_witness :
  exists kept_pre d_pre kept_post d_post,
    separate_by_loose_parts (Demo.host "" []) 14 0.5%float []
    = (Ok (kept_pre ++ [] ++ kept_post),
       MeshSeparate [14] "LOOSE" :: d_pre ++ [Unlink 1] ++ d_post)
    /\ kept_pre = [14]
    /\ d_pre = [ModifierAdd 14 "SOLIDIFY";
                SetAttr (OfModifier 14 0) "thickness" (VFloat 1%float);
                ModifierApply 14 0].
Proof.
  destruct (loose_part_filter (Demo.host "" []) 14 0.5%float [] [14] [] 1 eq_refl)
    as (kept_pre & d_pre & kept_post & d_post & Hpre & _ & Hrun & _).
  vm_compute in Hpre. inversion Hpre; subst kept_pre d_pre.
  exists [14], [ModifierAdd 14 "SOLIDIFY";
                SetAttr (OfModifier 14 0) "thickness" (VFloat 1%float);
                ModifierApply 14 0], kept_post, d_post.
  split; [exact Hrun|]. split; reflexivity.
Defined.

(** * Further properties of the operator *)

(** ** Properties of all commands of a computation *)

Lemma always_ret {A : Type} (P : trace -> Prop) (a : A) :
  additive P -> always P (ret a).
Proof. intros [H _] t. exact H. Qed.

Lemma always_emit (P : trace -> Prop) (e : event) :
  P [e] -> always P (emit e).
Proof. intros H t. exact H. Qed.

Lemma always_create {A : Type} (P : trace -> Prop) (q : trace -> A)
    (ev : A -> event) :
  (forall a, P [ev a]) -> always P (create q ev).
Proof. intros H t. apply H. Qed.

Lemma always_bind {A B : Type} (P : trace -> Prop) (m : M A) (f : A -> M B) :
  additive P -> always P m -> (forall a, always P (f a)) -> always P (bind m f).
Proof.
  intros [_ Happ] Hm Hf t. rewrite bind_unfold.
  specialize (Hm t). destruct (m t) as [[a|e] d]; cbn [snd] in *; [|exact Hm].
  specialize (Hf a (t ++ d)). destruct (f a (t ++ d)) as [r d']. cbn [snd] in *.
  now apply Happ.
Qed.

Lemma always_if {A : Type} (P : trace -> Prop) (b : bool) (m m' : M A) :
  always P m -> always P m' -> always P (if b then m else m').
Proof. now destruct b. Qed.

(** Three commands in a row, taken together. *)
Lemma always_emit3 (P : trace -> Prop) (e1 e2 e3 : event) :
  P [e1; e2; e3] -> always P (emit e1 ;;; emit e2 ;;; emit e3).
Proof. intros H t. exact H. Qed.

Section AlwaysFacts.

Variable host : Host.
Variable P : trace -> Prop.
Hypothesis P_additive : additive P.

Lemma always_export_object (number : Z) (name dirpath : string)
    (object : list Object) :
  (forall p o, P [ExportFbx object p o; ObjectDelete object]) ->
  (forall p o e, P [ExportFbx object p o; Print e; ObjectDelete object]) ->
  always P (export_object host number name dirpath object).
Proof.
  intros H2 H3 t. rewrite export_object_run. cbv zeta.
  destruct (export_scene_fbx host t object _) as [u|e]; [apply H2|].
  destruct e; first [apply H3|apply H2].
Qed.

Lemma always_loose_parts_loop (extrude : float) (cs : list Object) :
  (forall c x, P [ModifierAdd c "SOLIDIFY"; SetAttr (OfModifier c 0) "thickness" x;
                  ModifierApply c 0]) ->
  (forall c, P [Unlink c]) ->
  forall acc, always P (loose_parts_loop host extrude cs acc).
Proof.
  intros Hkeep Hdrop. destruct P_additive as [Hnil Happ].
  induction cs as [|c rest IH]; intros acc t; [exact Hnil|].
  rewrite loose_parts_loop_cons. cbv zeta.
  destruct (keeps host t c extrude).
  - specialize (IH (acc ++ [c]) (t ++ [ModifierAdd c "SOLIDIFY";
        SetAttr (OfModifier c 0) "thickness" (VFloat (extrude * 2)%float);
        ModifierApply c 0])).
    destruct (loose_parts_loop host extrude rest (acc ++ [c]) _) as [r d].
    cbn [snd] in *. apply (Happ [_; _; _] d); [apply Hkeep|exact IH].
  - specialize (IH acc (t ++ [Unlink c])).
    destruct (loose_parts_loop host extrude rest acc _) as [r d].
    cbn [snd] in *. apply (Happ [_] d); [apply Hdrop|exact IH].
Qed.

Lemma always_separate_by_loose_parts (object : Object) (extrude : float) :
  P [MeshSeparate [object] "LOOSE"] ->
  (forall c x, P [ModifierAdd c "SOLIDIFY"; SetAttr (OfModifier c 0) "thickness" x;
                  ModifierApply c 0]) ->
  (forall c, P [Unlink c]) ->
  always P (separate_by_loose_parts host object extrude).
Proof.
  intros Hsep Hkeep Hdrop. unfold separate_by_loose_parts.
  apply always_bind; [exact P_additive|now apply always_emit|intros _].
  apply always_bind; [exact P_additive|intros t; apply P_additive|intros sel].
  now apply always_loose_parts_loop.
Qed.

Lemma always_create_object (number : Z) (text : string) (font : VectorFont)
    (props : TextMeshCreatorProperties) :
  always P (synthesize host text font props) ->
  (forall o, always P (separate_by_loose_parts host o (thickness props))) ->
  (forall sel, always P (export_object host number text (export_path props) sel)) ->
  always P (create_object host number text font props).
Proof.
  intros Hsyn Hsep Hexp. unfold create_object.
  apply always_bind; [exact P_additive|exact Hsyn|intros o].
  apply always_if.
  - apply always_bind; [exact P_additive|apply Hsep|intros objects].
    apply always_if; [now apply always_ret|apply Hexp].
  - apply always_if; [now apply always_ret|apply Hexp].
Qed.

Lemma always_process_units (font : option VectorFont)
    (props : TextMeshCreatorProperties) (characters : list string) :
  (forall number text f,
      font = Some f -> always P (create_object host number text f props)) ->
  forall number, always P (process_units host font props characters number).
Proof.
  intros Hunit. destruct font as [f|].
  - induction characters as [|u rest IH]; intros number t;
      [apply P_additive|].
    rewrite process_units_cons.
    apply always_bind; [exact P_additive|now apply Hunit|intros n; apply IH].
  - intros number t. destruct characters; apply P_additive.
Qed.

(** A property of the commands of the font stage and of every unit is a
    property of the commands of the whole run. *)
Lemma always_execute (props : TextMeshCreatorProperties) :
  always P (load_font host props) ->
  (forall number text f, always P (create_object host number text f props)) ->
  always P (execute host props).
Proof.
  intros Hfont Hunit t. rewrite execute_run.
  specialize (Hfont t). destruct P_additive as [Hnil Happ].
  destruct (load_font host props t) as [[[|font]|e] d0]; cbn [snd] in *;
    try exact Hfont.
  destruct (fst (partition (separate_by props) (strings props) []));
    [|exact Hfont].
  destruct (fst (preview_truncate (is_preview props) a [])) as [cs|e];
    [|exact Hfont].
  pose proof (always_process_units font props cs
                (fun n u f _ => Hunit n u f) (increment_from props) (t ++ d0))
    as Hloop.
  destruct (process_units host font props cs (increment_from props) (t ++ d0))
    as [[n|e] d]; cbn [snd] in *; now apply Happ.
Qed.

End AlwaysFacts.

Lemma export_selections_app (d d' : trace) :
  export_selections (d ++ d') = export_selections d ++ export_selections d'.
Proof. apply flat_map_app. Qed.

Lemma unlinks_app (d d' : trace) : unlinks (d ++ d') = unlinks d ++ unlinks d'.
Proof. apply flat_map_app. Qed.

Lemma font_loads_app (d d' : trace) :
  font_loads (d ++ d') = font_loads d ++ font_loads d'.
Proof. apply flat_map_app. Qed.

Lemma curve_fonts_app (d d' : trace) :
  curve_fonts (d ++ d') = curve_fonts d ++ curve_fonts d'.
Proof. apply flat_map_app. Qed.

Lemma modifier_adds_app (d d' : trace) :
  modifier_adds (d ++ d') = modifier_adds d ++ modifier_adds d'.
Proof. apply flat_map_app. Qed.

Lemma modifier_applies_app (d d' : trace) :
  modifier_applies (d ++ d') = modifier_applies d ++ modifier_applies d'.
Proof. apply flat_map_app. Qed.

Lemma additive_deletions :
  additive (fun d => deletions d = export_selections d).
Proof.
  split; [reflexivity|]. intros d d' H H'.
  now rewrite deletions_app, export_selections_app, H, H'.
Qed.

Lemma additive_modifiers :
  additive (fun d => modifier_adds d = modifier_applies d).
Proof.
  split; [reflexivity|]. intros d d' H H'.
  now rewrite modifier_adds_app, modifier_applies_app, H, H'.
Qed.

Lemma additive_objects :
  additive (fun d => List.length (created_objects d)
                     = 2 * List.length (processed_units d)).
Proof.
  split; [reflexivity|]. intros d d' H H'.
  rewrite created_objects_app, processed_units_app, !length_app. lia.
Qed.

Lemma additive_no_font_load : additive (fun d => font_loads d = []).
Proof.
  split; [reflexivity|]. intros d d' H H'. now rewrite font_loads_app, H, H'.
Qed.

Lemma additive_curve_fonts (f : VectorFont) :
  additive (fun d => Forall (eq f) (curve_fonts d)).
Proof.
  split; [constructor|]. intros d d' H H'.
  rewrite curve_fonts_app. apply Forall_app. now split.
Qed.

(** Walks through a chain of commands, leaving one goal per command. *)
Ltac always_chain additivity :=
  repeat first
    [ apply always_emit3; solve [cbv; repeat constructor]
    | apply always_emit; solve [cbv; repeat constructor]
    | apply always_create; intros; solve [cbv; repeat constructor]
    | apply always_ret; exact additivity
    | apply always_if
    | apply always_bind; [exact additivity| |intros ?] ].

Section Invariants.

Variable host : Host.

Lemma synthesize_deletions (text : string) (font : VectorFont)
    (props : TextMeshCreatorProperties) :
  always (fun d => deletions d = export_selections d)
    (synthesize host text font props).
Proof. unfold synthesize. always_chain additive_deletions. Qed.

Lemma synthesize_modifiers (text : string) (font : VectorFont)
    (props : TextMeshCreatorProperties) :
  always (fun d => modifier_adds d = modifier_applies d)
    (synthesize host text font props).
Proof. unfold synthesize. always_chain additive_modifiers. Qed.

Lemma synthesize_no_font_load (text : string) (font : VectorFont)
    (props : TextMeshCreatorProperties) :
  always (fun d => font_loads d = []) (synthesize host text font props).
Proof. unfold synthesize. always_chain additive_no_font_load. Qed.

Lemma synthesize_curve_fonts (text : string) (font : VectorFont)
    (props : TextMeshCreatorProperties) :
  always (fun d => Forall (eq font) (curve_fonts d))
    (synthesize host text font props).
Proof. unfold synthesize. always_chain (additive_curve_fonts font). Qed.

Lemma synthesize_objects (text : string) (font : VectorFont)
    (props : TextMeshCreatorProperties) :
  always (fun d => List.length (created_objects d)
                   = 2 * List.length (processed_units d))
    (synthesize host text font props).
Proof.
  intros t.
  destruct (synthesize_run host text font props t)
    as (o & d & Hrun & Hu & _ & _ & Hc).
  rewrite Hrun. cbn [snd]. now rewrite Hu, Hc.
Qed.

(** A unit keeps any additive property that synthesis keeps and that holds
    of the commands of the separation and of the export. *)
Lemma create_object_always (P : trace -> Prop) (number : Z) (text : string)
    (font : VectorFont) (props : TextMeshCreatorProperties) :
  additive P ->
  always P (synthesize host text font props) ->
  (forall e, unit_of e = [] -> creation_of e = [] -> font_load_of e = []
             -> curve_font_of e = [] -> modifier_add_of e = []
             -> modifier_apply_of e = [] -> export_of e = []
             -> deletion_of e = [] -> P [e]) ->
  (forall c x, P [ModifierAdd c "SOLIDIFY"; SetAttr (OfModifier c 0) "thickness" x;
                  ModifierApply c 0]) ->
  (forall sel p o, P [ExportFbx sel p o; ObjectDelete sel]) ->
  (forall sel p o e, P [ExportFbx sel p o; Print e; ObjectDelete sel]) ->
  always P (create_object host number text font props).
Proof.
  intros Hadd Hsyn Hquiet Hkeep H2 H3.
  apply always_create_object; [exact Hadd|exact Hsyn| |].
  - intros o. apply always_separate_by_loose_parts;
      [exact Hadd|now apply Hquiet|exact Hkeep|intros c; now apply Hquiet].
  - intros sel. apply always_export_object; [apply H2|apply H3].
Qed.

End Invariants.

Section RunInvariants.

Variable host : Host.

Lemma always_load_font (P : trace -> Prop) (props : TextMeshCreatorProperties) :
  P [] ->
  (forall p o, P [FontsLoad p o]) ->
  (forall p o l m, P [FontsLoad p o; Report l m]) ->
  always P (load_font host props).
Proof.
  intros H0 H1 H2 t. rewrite load_font_run.
  destruct (String.eqb (PyStr.strip (font_path props)) ""); [exact H0|].
  cbv zeta.
  destruct (fonts_load host t (font_path props)) as [f|e]; [apply H1|].
  destruct e; first [apply H2|apply H1].
Qed.

(** The units of a run issue no font load. *)
Lemma process_units_no_font_load (font : option VectorFont)
    (props : TextMeshCreatorProperties) (characters : list string) (number : Z) :
  always (fun d => font_loads d = [])
    (process_units host font props characters number).
Proof.
  apply always_process_units; [exact additive_no_font_load|].
  intros n text f _.
  apply create_object_always; try reflexivity.
  - exact additive_no_font_load.
  - apply synthesize_no_font_load.
  - intros e _ _ H _ _ _ _ _. unfold font_loads. cbn. now rewrite H.
Qed.

(** The units of a run give their curves the font the loop was given. *)
Lemma process_units_curve_fonts (f : VectorFont)
    (props : TextMeshCreatorProperties) (characters : list string) (number : Z) :
  always (fun d => Forall (eq f) (curve_fonts d))
    (process_units host (Some f) props characters number).
Proof.
  apply always_process_units; [exact (additive_curve_fonts f)|].
  intros n text f' [= <-].
  apply create_object_always;
    [exact (additive_curve_fonts f)|apply synthesize_curve_fonts| |
     intros; cbv; constructor ..].
  intros e _ _ _ H _ _ _ _. unfold curve_fonts. cbn. rewrite H. constructor.
Qed.

End RunInvariants.

(** X7. In every run, whatever the request and however the run ends, the
    selections handed to [object.delete] are the selections handed to the
    export, one for one and in the same order: nothing is deleted that was
    not first offered for export, and nothing offered is left undeleted. *)
Theorem deletions_match_exports (host : Host)
    (props : TextMeshCreatorProperties) (t : trace) :
  deletions (snd (execute host props t))
  = export_selections (snd (execute host props t)).
Proof.
  apply (always_execute host _ additive_deletions props).
  - apply always_load_font; reflexivity.
  - intros number text f.
    apply create_object_always; try reflexivity.
    + exact additive_deletions.
    + apply synthesize_deletions.
    + intros e _ _ _ _ _ _ He Hd.
      unfold deletions, export_selections. cbn. rewrite Hd.
      destruct e; try reflexivity. discriminate He.
Qed.

(** X14. In every run, every modifier that is added is applied: the objects
    that get a modifier and the objects a modifier is applied on are the
    same, in the same order.  No run leaves a modifier on a stack. *)
Theorem modifiers_always_applied (host : Host)
    (props : TextMeshCreatorProperties) (t : trace) :
  modifier_adds (snd (execute host props t))
  = modifier_applies (snd (execute host props t)).
Proof.
  apply (always_execute host _ additive_modifiers props).
  - apply always_load_font; reflexivity.
  - intros number text f.
    apply create_object_always; try reflexivity.
    + exact additive_modifiers.
    + apply synthesize_modifiers.
    + intros e _ _ _ _ Ha Hp _ _.
      unfold modifier_adds, modifier_applies. cbn. now rewrite Ha, Hp.
Qed.

(** X12. In every run, two objects are created for each unit synthesis
    starts on (the curve object and the mesh object), and none otherwise. *)
Theorem two_objects_per_unit (host : Host)
    (props : TextMeshCreatorProperties) (t : trace) :
  List.length (created_objects (snd (execute host props t)))
  = 2 * List.length (processed_units (snd (execute host props t))).
Proof.
  apply (always_execute host _ additive_objects props).
  - apply always_load_font; reflexivity.
  - intros number text f.
    apply create_object_always; try reflexivity.
    + exact additive_objects.
    + apply synthesize_objects.
    + intros e Hu Hc _ _ _ _ _ _.
      unfold created_objects, processed_units. cbn. now rewrite Hu, Hc.
Qed.

(** X2. A run loads a font at most once, before anything else it does: not
    at all when the configured path is blank, and otherwise once, from the
    path exactly as configured (white space around it included). *)
Theorem font_loaded_once (host : Host) (props : TextMeshCreatorProperties)
    (t : trace) :
  font_loads (snd (execute host props t))
  = if String.eqb (PyStr.strip (font_path props)) "" then []
    else [font_path props].
Proof.
  rewrite execute_run.
  assert (Hstage : font_loads (snd (load_font host props t))
                   = if String.eqb (PyStr.strip (font_path props)) "" then []
                     else [font_path props]).
  { rewrite load_font_run.
    destruct (String.eqb (PyStr.strip (font_path props)) ""); [reflexivity|].
    cbv zeta.
    destruct (fonts_load host t (font_path props)) as [f|e]; [reflexivity|].
    destruct e; reflexivity. }
  destruct (load_font host props t) as [[[|font]|e] d0]; cbn [snd] in *;
    try exact Hstage.
  destruct (fst (partition (separate_by props) (strings props) []));
    [|exact Hstage].
  destruct (fst (preview_truncate (is_preview props) a [])) as [cs|e];
    [|exact Hstage].
  pose proof (process_units_no_font_load host font props cs
                (increment_from props) (t ++ d0)) as Hloop.
  cbv beta in Hloop.
  destruct (process_units host font props cs (increment_from props) (t ++ d0))
    as [[n|e] d]; cbn [snd] in *;
    now rewrite font_loads_app, Hloop, app_nil_r.
Qed.

(** X15. Every font a run gives to a text curve is the font its one load
    returned: all units share it, and with a blank path or a failed load no
    curve is given any font. *)
Theorem one_font_for_all_units (host : Host)
    (props : TextMeshCreatorProperties) (t : trace) :
  Forall (fun f => PyStr.strip (font_path props) <> ""
                   /\ fonts_load host t (font_path props) = Ok f)
    (curve_fonts (snd (execute host props t))).
Proof.
  rewrite execute_run, load_font_run.
  destruct (String.eqb (PyStr.strip (font_path props)) "") eqn:Hblank.
  - destruct (fst (partition (separate_by props) (strings props) []));
      [|constructor].
    destruct (fst (preview_truncate (is_preview props) a [])) as [cs|e];
      [|constructor].
    destruct cs; cbn; constructor.
  - cbv zeta. apply String.eqb_neq in Hblank.
    destruct (fonts_load host t (font_path props)) as [f|e] eqn:Hload.
    + destruct (fst (partition (separate_by props) (strings props) []));
        [|constructor].
      destruct (fst (preview_truncate (is_preview props) a [])) as [cs|e];
        [|constructor].
      pose proof (process_units_curve_fonts host f props cs
                    (increment_from props)
                    (t ++ [FontsLoad (font_path props) (Ok f)])) as Hloop.
      cbv beta in Hloop.
      destruct (process_units host (Some f) props cs _ _) as [[n|e] d];
        cbn [snd app curve_fonts flat_map curve_font_of] in *;
        (eapply Forall_impl; [|exact Hloop]); intros f' <-; now split.
    + destruct e; constructor.
Qed.

(** ** The driver: errors and edges *)

Lemma partition_unknown_mode (separate_by strings : string) :
  separate_by <> "CHARACTER" -> separate_by <> "NONE" ->
  separate_by <> "SPACE" -> separate_by <> "TAB" ->
  fst (partition separate_by strings []) = Raise (KeyError separate_by).
Proof.
  intros Hc Hn Hs Ht. unfold partition.
  apply String.eqb_neq in Hc, Hn. rewrite Hc, Hn. cbn [negb].
  unfold separators, lookup.
  assert (Hs' : String.eqb "SPACE" separate_by = false)
    by (apply String.eqb_neq; congruence).
  assert (Ht' : String.eqb "TAB" separate_by = false)
    by (apply String.eqb_neq; congruence).
  now rewrite Hs', Ht'.
Qed.

(** X1. A separator mode other than CHARACTER, NONE, SPACE and TAB makes a
    run that gets past the font stage stop with [KeyError] for that mode.
    The mode is looked up only after the font stage, so a configured font
    has been loaded by then; nothing else has happened. *)
Theorem unknown_mode_key_error (host : Host)
    (props : TextMeshCreatorProperties) (t : trace) :
  separate_by props <> "CHARACTER" -> separate_by props <> "NONE" ->
  separate_by props <> "SPACE" -> separate_by props <> "TAB" ->
  (PyStr.strip (font_path props) = ""
   \/ exists f, fonts_load host t (font_path props) = Ok f) ->
  execute host props t
  = (Raise (KeyError (separate_by props)),
     if String.eqb (PyStr.strip (font_path props)) "" then []
     else [FontsLoad (font_path props) (fonts_load host t (font_path props))]).
Proof.
  intros Hc Hn Hs Ht Hfont.
  rewrite execute_run, load_font_run.
  rewrite (partition_unknown_mode _ _ Hc Hn Hs Ht).
  destruct (String.eqb (PyStr.strip (font_path props)) "") eqn:Hblank;
    [reflexivity|].
  destruct Hfont as [Hb|[f Hf]].
  - rewrite Hb in Hblank. discriminate.
  - cbv zeta. now rewrite Hf.
Qed.

Lemma unknown_mode_key_error_witness :
  execute (Demo.host "" []) (Demo.props "A,B" "COMMA" "a.ttf" false false 0) []
  = (Raise (KeyError "COMMA"), [FontsLoad "a.ttf" (Ok 0)]).
Proof.
  apply (unknown_mode_key_error (Demo.host "" [])
           (Demo.props "A,B" "COMMA" "a.ttf" false false 0) []);
    try discriminate.
  right. now exists 0.
Defined.

(** X3. A run returns CANCELLED in one case only: the font path is not
    blank and loading it raises [RuntimeError].  No failure of an export and
    no other condition cancels a run. *)
Theorem cancelled_iff_font_load_fails (host : Host)
    (props : TextMeshCreatorProperties) (t : trace) :
  fst (execute host props t) = Ok CANCELLED
  <-> PyStr.strip (font_path props) <> ""
      /\ exists msg, fonts_load host t (font_path props)
                     = Raise (RuntimeError msg).
Proof.
  rewrite execute_run, load_font_run.
  destruct (String.eqb (PyStr.strip (font_path props)) "") eqn:Hblank.
  - apply String.eqb_eq in Hblank. split; [|now intros [H _]].
    intros H. exfalso.
    destruct (fst (partition (separate_by props) (strings props) []));
      [|discriminate].
    destruct (fst (preview_truncate (is_preview props) a [])); [|discriminate].
    destruct (process_units host None props a0 _ _) as [[n|e] d]; discriminate.
  - apply String.eqb_neq in Hblank. cbv zeta.
    destruct (fonts_load host t (font_path props)) as [f|e].
    + split; [|now intros [_ [msg H]]].
      intros H. exfalso.
      destruct (fst (partition (separate_by props) (strings props) []));
        [|discriminate].
      destruct (fst (preview_truncate (is_preview props) a []));
        [|discriminate].
      destruct (process_units host (Some f) props a0 _ _) as [[n|e] d];
        discriminate.
    + destruct e; cbn [fst];
        try (split; [discriminate|intros [_ [m H]]; discriminate H]).
      split; [|reflexivity].
      intros _. split; [exact Hblank|now exists msg].
Qed.

(** X4. When loading the font raises anything other than [RuntimeError],
    the exception leaves [execute]: the run is not cancelled, nothing is
    reported, and nothing else is done. *)
Theorem font_error_propagates (host : Host) (props : TextMeshCreatorProperties)
    (t : trace) (e : exn) :
  PyStr.strip (font_path props) <> "" ->
  fonts_load host t (font_path props) = Raise e ->
  (forall msg, e <> RuntimeError msg) ->
  execute host props t = (Raise e, [FontsLoad (font_path props) (Raise e)]).
Proof.
  intros Hpath Hload He.
  rewrite execute_run, load_font_run.
  apply String.eqb_neq in Hpath. rewrite Hpath. cbv zeta. rewrite Hload.
  destruct e; try reflexivity. now destruct (He msg).
Qed.

(** X5. The empty text split by character, outside a preview, has no unit:
    the run ends as the font stage left it, FINISHED unless the font could
    not be loaded, without touching the scene.  With a blank font path this
    is a run without any command, and it does finish: the unassigned [font]
    is never read. *)
Theorem empty_text_by_character (host : Host)
    (props : TextMeshCreatorProperties) (t : trace) :
  strings props = "" ->
  separate_by props = "CHARACTER" ->
  is_preview props = false ->
  execute host props t
  = (match fst (load_font host props t) with
     | Ok Cancel => Ok CANCELLED
     | Ok (Proceed _) => Ok FINISHED
     | Raise e => Raise e
     end, snd (load_font host props t))
  /\ (PyStr.strip (font_path props) = ""
      -> execute host props t = (Ok FINISHED, [])).
Proof.
  intros Htext Hmode Hpre.
  assert (Hrun : execute host props t
                 = (match fst (load_font host props t) with
                    | Ok Cancel => Ok CANCELLED
                    | Ok (Proceed _) => Ok FINISHED
                    | Raise e => Raise e
                    end, snd (load_font host props t))).
  { rewrite execute_run, Htext, Hmode, Hpre.
    destruct (load_font host props t) as [[[|font]|e] d0]; try reflexivity.
    cbn. now rewrite app_nil_r. }
  split; [exact Hrun|].
  intros Hblank. rewrite Hrun, load_font_run, Hblank. reflexivity.
Qed.

Lemma empty_text_by_character_witness :
  execute (Demo.host "" []) (Demo.props "" "CHARACTER" "" true false 0) []
  = (Ok FINISHED, []).
Proof.
  apply (empty_text_by_character (Demo.host "" [])
           (Demo.props "" "CHARACTER" "" true false 0) []); reflexivity.
Defined.

Lemma font_error_propagates_witness :
  execute (Demo.uniform 0 (Some (OtherError "OSError")) None)
    (Demo.props "AB" "CHARACTER" "a.ttf" false false 0) []
  = (Raise (OtherError "OSError"),
     [FontsLoad "a.ttf" (Raise (OtherError "OSError"))]).
Proof.
  apply (font_error_propagates
           (Demo.uniform 0 (Some (OtherError "OSError")) None)
           (Demo.props "AB" "CHARACTER" "a.ttf" false false 0) []
           (OtherError "OSError")); try discriminate.
  reflexivity.
Defined.

(** ** The loop over the units *)

Section LoopFacts.

Variable host : Host.

(** Outside a preview a unit ends with one export and the deletion of what
    was exported; the counter moves as the export ended. *)
Lemma create_object_export (number : Z) (text : string) (font : VectorFont)
    (props : TextMeshCreatorProperties) (t : trace) :
  is_preview props = false ->
  exists sel d0,
    let path := path_join host (export_path props) (file_name number text) in
    let outcome := export_scene_fbx host (t ++ d0) sel path in
    create_object host number text font props t
    = (match outcome with
       | Ok _ => Ok (number + 1)%Z
       | Raise (RuntimeError _) => Ok number
       | Raise e => Raise e
       end,
       d0 ++ ExportFbx sel path outcome
          :: match outcome with
             | Raise (RuntimeError msg) => [Print (RuntimeError msg)]
             | _ => []
             end ++ [ObjectDelete sel])
    /\ processed_units d0 = [text] /\ exports d0 = [] /\ deletions d0 = [].
Proof.
  intros Hpre.
  destruct (create_object_run host number text font props t)
    as (o & d_syn & objects & d_sep & _ & _ & Hu & He & Hd & Hu' & He' & Hd'
        & Hrun).
  rewrite Hrun, Hpre. cbv zeta.
  set (sel := if properties.separate_by_loose_parts props
              then (objects, d_sep) else ([o], [])).
  exists (fst sel), (d_syn ++ snd sel).
  rewrite export_object_run. cbv zeta. unfold file_name.
  split.
  - destruct (export_scene_fbx host (t ++ d_syn ++ snd sel) (fst sel) _)
      as [u|e]; [now rewrite <- app_assoc|].
    destruct e; now rewrite <- app_assoc.
  - rewrite processed_units_app, exports_app, deletions_app, Hu, He, Hd.
    unfold sel. destruct (properties.separate_by_loose_parts props);
      cbn [snd]; [rewrite Hu', He', Hd'|]; repeat split.
Qed.

End LoopFacts.

(** Outside a preview, on a host whose exports fail only recoverably, the
    loop gets through all its units. *)
Lemma process_units_complete (host : Host) (font : VectorFont)
    (props : TextMeshCreatorProperties) :
  recoverable host ->
  is_preview props = false ->
  forall (units : list string) (number : Z) (t : trace),
  exists n' d,
    process_units host (Some font) props units number t = (Ok n', d)
    /\ processed_units d = units
    /\ List.length (exports d) = List.length units.
Proof.
  intros Hrec Hpre units.
  induction units as [|u rest IH]; intros number t.
  - exists number, []. repeat split.
  - rewrite process_units_cons, bind_unfold.
    destruct (create_object_export host number u font props t Hpre)
      as (sel & d0 & Hrun & Hu & He & _).
    cbv zeta in Hrun. rewrite Hrun. clear Hrun.
    specialize (Hrec (t ++ d0) sel
                  (path_join host (export_path props) (file_name number u))).
    destruct (export_scene_fbx host (t ++ d0) sel _) as [[]|e];
      [|destruct e; try contradiction];
      match goal with
      | |- context [process_units host (Some font) props rest ?n ?h] =>
          destruct (IH n h) as (n' & d & Hloop & Hu' & Hlen)
      end;
      rewrite Hloop; eexists; eexists; (split; [reflexivity|]);
      rewrite !processed_units_app, !exports_app, Hu, He, Hu';
      cbn; rewrite Hlen; repeat split.
Qed.

(** X6. Outside a preview, on a host whose exports succeed or raise
    [RuntimeError], the loop exports every unit once, in order, and the
    number in a unit's file name is the start number plus the number of
    exports before it that succeeded: after a failed export the next unit
    takes the very same number. *)
Theorem export_numbering (host : Host) (font : VectorFont)
    (props : TextMeshCreatorProperties) :
  recoverable host ->
  is_preview props = false ->
  forall (units : list string) (number : Z) (t : trace),
  exists n' d,
    process_units host (Some font) props units number t = (Ok n', d)
    /\ processed_units d = units
    /\ List.length (exports d) = List.length units
    /\ map fst (exports d)
       = numbered_paths host (export_path props) number units
           (map snd (exports d)).
Proof.
  intros Hrec Hpre units.
  induction units as [|u rest IH]; intros number t.
  - exists number, []. repeat split.
  - rewrite process_units_cons, bind_unfold.
    destruct (create_object_export host number u font props t Hpre)
      as (sel & d0 & Hrun & Hu & He & _).
    cbv zeta in Hrun. rewrite Hrun. clear Hrun.
    specialize (Hrec (t ++ d0) sel
                  (path_join host (export_path props) (file_name number u))).
    destruct (export_scene_fbx host (t ++ d0) sel _) as [[]|e].
    + destruct (IH (number + 1)%Z
                  (t ++ d0 ++ [ExportFbx sel
                     (path_join host (export_path props) (file_name number u))
                     (Ok tt); ObjectDelete sel]))
        as (n' & d & Hloop & Hu' & Hlen & Hpaths).
      cbn [app]. rewrite Hloop. eexists; eexists. split; [reflexivity|].
      rewrite !processed_units_app, !exports_app, Hu, He, Hu'.
      cbn. rewrite Hlen, Hpaths at 1. repeat split.
    + destruct e; try contradiction.
      destruct (IH number
                  (t ++ d0 ++ [ExportFbx sel
                     (path_join host (export_path props) (file_name number u))
                     (Raise (RuntimeError msg)); Print (RuntimeError msg);
                     ObjectDelete sel]))
        as (n' & d & Hloop & Hu' & Hlen & Hpaths).
      cbn [app]. rewrite Hloop. eexists; eexists. split; [reflexivity|].
      rewrite !processed_units_app, !exports_app, Hu, He, Hu'.
      cbn. rewrite Hlen, Hpaths at 1. repeat split.
Qed.

Lemma export_numbering_witness :
  exists n' d,
    process_units (Demo.host "" ["/out/4-B.fbx"]) (Some 0)
      (Demo.props "A B C" "SPACE" "a.ttf" false false 3) ["A"; "B"; "C"] 3 []
    = (Ok n', d)
    /\ map fst (exports d)
       = numbered_paths (Demo.host "" ["/out/4-B.fbx"]) "/out" 3 ["A"; "B"; "C"]
           (map snd (exports d)).
Proof.
  destruct (export_numbering (Demo.host "" ["/out/4-B.fbx"]) 0
              (Demo.props "A B C" "SPACE" "a.ttf" false false 3)
              (demo_recoverable "" ["/out/4-B.fbx"]) eq_refl
              ["A"; "B"; "C"] 3%Z [])
    as (n' & d & Hrun & _ & _ & Hpaths).
  exists n', d. split; [exact Hrun|exact Hpaths].
Defined.

Example run_numbering :
  exports (snd (process_units (Demo.host "" ["/out/4-B.fbx"]) (Some 0)
                  (Demo.props "A B C" "SPACE" "a.ttf" false false 3)
                  ["A"; "B"; "C"] 3 []))
  = [("/out/3-A.fbx", Ok tt);
     ("/out/4-B.fbx", Raise (RuntimeError "cannot write file"));
     ("/out/4-C.fbx", Ok tt)].
Proof. vm_compute. reflexivity. Qed.

(** X8. Outside a preview, on a host whose exports succeed or raise
    [RuntimeError], a run whose font loads and whose mode is known always
    returns FINISHED, however many exports fail: it starts synthesis on
    every unit of the partition, in order, and exports each unit once. *)
Theorem run_completes (host : Host) (props : TextMeshCreatorProperties)
    (t : trace) (font : VectorFont) (units : list string) :
  recoverable host ->
  is_preview props = false ->
  PyStr.strip (font_path props) <> "" ->
  fonts_load host t (font_path props) = Ok font ->
  fst (partition (separate_by props) (strings props) []) = Ok units ->
  exists d,
    execute host props t
    = (Ok FINISHED, FontsLoad (font_path props) (Ok font) :: d)
    /\ processed_units d = units
    /\ List.length (exports d) = List.length units.
Proof.
  intros Hrec Hpre Hpath Hload Hpart.
  destruct (process_units_complete host font props Hrec Hpre units
              (increment_from props)
              (t ++ [FontsLoad (font_path props) (Ok font)]))
    as (n' & d & Hloop & Hu & Hlen).
  exists d. split; [|now split].
  rewrite execute_run, load_font_run.
  apply String.eqb_neq in Hpath. rewrite Hpath. cbv zeta.
  rewrite Hload, Hpart, Hpre. cbn [preview_truncate ret fst].
  now rewrite Hloop.
Qed.

Lemma run_completes_witness :
  exists d,
    execute (Demo.uniform 0 None (Some (RuntimeError "disk full")))
      (Demo.props "A B" "SPACE" "a.ttf" false false 0) []
    = (Ok FINISHED, FontsLoad "a.ttf" (Ok 0) :: d)
    /\ processed_units d = ["A"; "B"].
Proof.
  assert (Hrec : recoverable
                   (Demo.uniform 0 None (Some (RuntimeError "disk full"))))
    by (intros t sel p; exact I).
  assert (Hpath : PyStr.strip "a.ttf" <> "") by discriminate.
  destruct (run_completes
              (Demo.uniform 0 None (Some (RuntimeError "disk full")))
              (Demo.props "A B" "SPACE" "a.ttf" false false 0) [] 0 ["A"; "B"]
              Hrec eq_refl Hpath eq_refl eq_refl)
    as (d & Hrun & Hu & _).
  exists d. split; [exact Hrun|exact Hu].
Defined.

(** ** Loose parts: what becomes of the candidates *)

Section CandidateFacts.

Variable host : Host.

Lemma loose_parts_loop_mask (extrude : float) (cs : list Object) :
  forall (acc : list Object) (t : trace),
  exists mask kept d,
    List.length mask = List.length cs
    /\ loose_parts_loop host extrude cs acc t = (Ok (acc ++ kept), d)
    /\ kept = select mask cs
    /\ unlinks d = select (map negb mask) cs
    /\ modifier_adds d = kept /\ modifier_applies d = kept.
Proof.
  induction cs as [|c rest IH]; intros acc t.
  - exists [], [], []. cbn. rewrite app_nil_r. repeat split.
  - rewrite loose_parts_loop_cons. cbv zeta.
    destruct (keeps host t c extrude).
    + destruct (IH (acc ++ [c]) (t ++ [ModifierAdd c "SOLIDIFY";
          SetAttr (OfModifier c 0) "thickness" (VFloat (extrude * 2)%float);
          ModifierApply c 0]))
        as (mask & kept & d & Hlen & Hrun & Hkept & Hun & Hadd & Happ).
      rewrite Hrun. exists (true :: mask), (c :: kept). eexists.
      rewrite <- app_assoc. split; [cbn; now rewrite Hlen|].
      split; [reflexivity|]. cbn.
      split; [now f_equal|]. split; [exact Hun|].
      split; f_equal; assumption.
    + destruct (IH acc (t ++ [Unlink c]))
        as (mask & kept & d & Hlen & Hrun & Hkept & Hun & Hadd & Happ).
      rewrite Hrun. exists (false :: mask), kept. eexists.
      split; [cbn; now rewrite Hlen|].
      split; [reflexivity|]. cbn.
      split; [exact Hkept|]. split; [f_equal; exact Hun|].
      split; assumption.
Qed.

End CandidateFacts.

(** X10. The separation sorts its candidates -- the object and the objects
    selected after the split, in that order -- into two: those returned,
    each of which got one modifier added and applied, and those unlinked.
    Every candidate ends in exactly one of the two, and both keep the order
    of the candidates. *)
Theorem loose_parts_split (host : Host) (object : Object) (extrude : float)
    (t : trace) :
  let cs :=
    object :: selected_objects host (t ++ [MeshSeparate [object] "LOOSE"]) in
  exists mask objects d,
    List.length mask = List.length cs
    /\ separate_by_loose_parts host object extrude t
       = (Ok objects, MeshSeparate [object] "LOOSE" :: d)
    /\ objects = select mask cs
    /\ unlinks d = select (map negb mask) cs
    /\ modifier_adds d = objects /\ modifier_applies d = objects.
Proof.
  cbv zeta.
  destruct (loose_parts_loop_mask host extrude
              (object :: selected_objects host
                           (t ++ [MeshSeparate [object] "LOOSE"]))
              [] (t ++ [MeshSeparate [object] "LOOSE"]))
    as (mask & kept & d & Hlen & Hrun & Hkept & Hun & Hadd & Happ).
  exists mask, kept, d.
  split; [exact Hlen|]. split; [|now repeat split].
  unfold separate_by_loose_parts. rewrite bind_unfold. unfold emit at 1.
  rewrite bind_unfold. unfold ask at 1. rewrite app_nil_r, Hrun. reflexivity.
Qed.

(** ** The objects of a unit *)

Section ObjectFacts.

Variable host : Host.

(** Synthesis creates the curve object and then the mesh object, links
    both, unlinks the curve object again and returns the mesh object. *)
Lemma synthesize_handles (text : string) (font : VectorFont)
    (props : TextMeshCreatorProperties) (t : trace) :
  exists font_object_o font_object_f d,
    synthesize host text font props t = (Ok font_object_f, d)
    /\ created_objects d = [font_object_o; font_object_f]
    /\ unlinks d = [font_object_o].
Proof.
  unfold synthesize.
  destruct (center_to_origin props), (use_decimate props);
    eexists; eexists; eexists; (split; [reflexivity|]); split; reflexivity.
Qed.

End ObjectFacts.

(** X13. Without the separation and outside a preview, a unit creates two
    objects, the curve object and then the mesh object.  The mesh object
    alone is exported and then deleted.  The curve object is unlinked from
    the scene collection and is never handed to [object.delete]. *)
Theorem curve_object_left_behind (host : Host) (number : Z) (text : string)
    (font : VectorFont) (props : TextMeshCreatorProperties) (t : trace) :
  properties.separate_by_loose_parts props = false ->
  is_preview props = false ->
  exists font_object_o font_object_f,
    let d := snd (create_object host number text font props t) in
    created_objects d = [font_object_o; font_object_f]
    /\ unlinks d = [font_object_o]
    /\ export_selections d = [[font_object_f]]
    /\ deletions d = [[font_object_f]].
Proof.
  intros Hloose Hpre.
  destruct (synthesize_handles host text font props t)
    as (o1 & o2 & d & Hsyn & Hc & Hun).
  destruct (create_object_run host number text font props t)
    as (o & d_syn & objects & d_sep & Hsyn' & _ & _ & _ & Hd & _ & _ & _ & Hrun).
  rewrite Hsyn in Hsyn'. inversion Hsyn'; subst o d_syn.
  assert (Hes : export_selections d = []).
  { pose proof (synthesize_deletions host text font props t) as H.
    cbv beta in H. rewrite Hsyn in H. cbn [snd] in H. now rewrite <- H. }
  exists o1, o2. cbv zeta.
  rewrite Hrun, Hloose, Hpre. cbv zeta. cbn [fst snd].
  rewrite export_object_run. cbv zeta.
  destruct (export_scene_fbx host _ _ _) as [u|e]; [|destruct e];
    cbn [snd];
    rewrite created_objects_app, unlinks_app, export_selections_app,
      deletions_app, Hc, Hun, Hes, Hd;
    repeat split.
Qed.

Lemma curve_object_left_behind_witness :
  let d := snd (create_object (Demo.host "" []) 0 "A" 0
                  (Demo.props "A" "NONE" "a.ttf" false false 0) []) in
  created_objects d = [8; 13] /\ unlinks d = [8] /\ deletions d = [[13]].
Proof.
  cbv zeta.
  destruct (curve_object_left_behind (Demo.host "" []) 0 "A" 0
              (Demo.props "A" "NONE" "a.ttf" false false 0) []
              eq_refl eq_refl)
    as (o1 & o2 & Hc & Hun & _ & Hd).
  cbv zeta in Hc, Hun, Hd.
  vm_compute in Hc. inversion Hc; subst o1 o2.
  split; [reflexivity|]. split; [exact Hun|exact Hd].
Defined.

(** ** What the user gets to see *)

Lemma reports_app (d d' : trace) : reports (d ++ d') = reports d ++ reports d'.
Proof. apply flat_map_app. Qed.

Lemma prints_app (d d' : trace) : prints (d ++ d') = prints d ++ prints d'.
Proof. apply flat_map_app. Qed.

Lemma export_errors_app (d d' : trace) :
  export_errors (d ++ d') = export_errors d ++ export_errors d'.
Proof. apply flat_map_app. Qed.

Lemma additive_no_report : additive (fun d => reports d = []).
Proof.
  split; [reflexivity|]. intros d d' H H'. now rewrite reports_app, H, H'.
Qed.

Lemma additive_prints : additive (fun d => prints d = export_errors d).
Proof.
  split; [reflexivity|]. intros d d' H H'.
  now rewrite prints_app, export_errors_app, H, H'.
Qed.

Section MessageFacts.

Variable host : Host.

Lemma create_object_no_report (number : Z) (text : string) (font : VectorFont)
    (props : TextMeshCreatorProperties) :
  always (fun d => reports d = []) (create_object host number text font props).
Proof.
  apply always_create_object; [exact additive_no_report| | |].
  - unfold synthesize. always_chain additive_no_report.
  - intros o. apply always_separate_by_loose_parts;
      [exact additive_no_report|reflexivity..].
  - intros sel. apply always_export_object; reflexivity.
Qed.

Lemma create_object_prints (number : Z) (text : string) (font : VectorFont)
    (props : TextMeshCreatorProperties) :
  always (fun d => prints d = export_errors d)
    (create_object host number text font props).
Proof.
  apply always_create_object; [exact additive_prints| | |].
  - unfold synthesize. always_chain additive_prints.
  - intros o. apply always_separate_by_loose_parts;
      [exact additive_prints|reflexivity..].
  - intros sel t. rewrite export_object_run. cbv zeta.
    destruct (export_scene_fbx host t sel _) as [u|e] eqn:Hout;
      [reflexivity|].
    destruct e; reflexivity.
Qed.

End MessageFacts.

(** X16. A run reports to the user in one case only, the one in which it
    is cancelled: the single report is the ERROR about the font.  Failed
    exports, unknown modes and every other failure report nothing. *)
Theorem report_only_when_cancelled (host : Host)
    (props : TextMeshCreatorProperties) (t : trace) :
  reports (snd (execute host props t))
  = match fst (execute host props t) with
    | Ok CANCELLED => [("ERROR", "Font file not found or invalid format.")]
    | _ => []
    end.
Proof.
  rewrite execute_run, load_font_run.
  assert (Hloop : forall font cs t',
             reports (snd (process_units host font props cs
                             (increment_from props) t')) = []).
  { intros font cs t'.
    apply (always_process_units host _ additive_no_report font props cs
             (fun n u f _ => create_object_no_report host n u f props)
             (increment_from props) t'). }
  destruct (String.eqb (PyStr.strip (font_path props)) "").
  - destruct (fst (partition (separate_by props) (strings props) []));
      [|reflexivity].
    destruct (fst (preview_truncate (is_preview props) a [])) as [cs|e];
      [|reflexivity].
    specialize (Hloop None cs (t ++ [])).
    destruct (process_units host None props cs _ _) as [[n|e] d];
      cbn [fst snd app] in *; exact Hloop.
  - cbv zeta.
    destruct (fonts_load host t (font_path props)) as [f|e].
    + destruct (fst (partition (separate_by props) (strings props) []));
        [|reflexivity].
      destruct (fst (preview_truncate (is_preview props) a [])) as [cs|e];
        [|reflexivity].
      specialize (Hloop (Some f) cs (t ++ [FontsLoad (font_path props) (Ok f)])).
      destruct (process_units host (Some f) props cs _ _) as [[n|e] d];
        cbn [fst snd] in *; rewrite reports_app, Hloop; reflexivity.
    + destruct e; reflexivity.
Qed.

(** X17. In every run, what is printed is exactly the [RuntimeError]s the
    exports raised, one for one and in the same order: each recoverable
    export failure is printed, and nothing else ever is. *)
Theorem prints_are_export_errors (host : Host)
    (props : TextMeshCreatorProperties) (t : trace) :
  prints (snd (execute host props t))
  = export_errors (snd (execute host props t)).
Proof.
  apply (always_execute host _ additive_prints props).
  - apply always_load_font; reflexivity.
  - intros number text f. apply create_object_prints.
Qed.

(** ** The separation, command by command *)

Section SeparationCommands.

Variable host : Host.

(** The loop returns the candidates whose test succeeded at their turn and
    issues, candidate by candidate, the commands that go with the test. *)
Lemma loose_parts_loop_exact (extrude : float) (cs : list Object) :
  forall (acc : list Object) (t : trace),
  loose_parts_loop host extrude cs acc t
  = (Ok (acc ++ select (loose_part_mask host extrude cs t) cs),
     loose_part_commands extrude (loose_part_mask host extrude cs t) cs).
Proof.
  induction cs as [|c rest IH]; intros acc t.
  - cbn. now rewrite app_nil_r.
  - rewrite loose_parts_loop_cons. cbv zeta.
    cbn [loose_part_mask select loose_part_commands].
    destruct (keeps host t c extrude); cbn [candidate_commands];
      rewrite IH; [now rewrite <- app_assoc|reflexivity].
Qed.

Lemma separate_by_loose_parts_exact (object : Object) (extrude : float)
    (t : trace) :
  let h := t ++ [MeshSeparate [object] "LOOSE"] in
  let cs := object :: selected_objects host h in
  let mask := loose_part_mask host extrude cs h in
  separate_by_loose_parts host object extrude t
  = (Ok (select mask cs),
     MeshSeparate [object] "LOOSE" :: loose_part_commands extrude mask cs).
Proof.
  cbv zeta. unfold separate_by_loose_parts.
  rewrite bind_unfold. unfold emit at 1.
  rewrite bind_unfold. unfold ask at 1.
  rewrite app_nil_r, loose_parts_loop_exact. reflexivity.
Qed.

(** When every test fails, nothing is selected and every candidate is
    unlinked. *)
Lemma loose_part_mask_none (extrude : float) (cs : list Object) :
  forall t : trace,
  Forall (eq false) (loose_part_mask host extrude cs t) ->
  select (loose_part_mask host extrude cs t) cs = []
  /\ loose_part_commands extrude (loose_part_mask host extrude cs t) cs
     = map Unlink cs.
Proof.
  induction cs as [|c rest IH]; intros t H; [now split|].
  cbn [loose_part_mask] in *. inversion H as [|b m Hb Hm]; subst.
  rewrite <- Hb in *. cbn [candidate_commands] in *.
  destruct (IH _ Hm) as [Hs Hc].
  cbn [select loose_part_commands candidate_commands map app].
  now rewrite Hs, Hc.
Qed.

End SeparationCommands.

(** What the commands of the loop unlink, and what they thicken. *)
Lemma loose_part_commands_observed (extrude : float) (mask : list bool) :
  forall cs : list Object,
  unlinks (loose_part_commands extrude mask cs) = select (map negb mask) cs
  /\ modifier_adds (loose_part_commands extrude mask cs) = select mask cs
  /\ modifier_applies (loose_part_commands extrude mask cs) = select mask cs
  /\ exports (loose_part_commands extrude mask cs) = []
  /\ deletions (loose_part_commands extrude mask cs) = [].
Proof.
  induction mask as [|keep mask IH]; intros cs; [now repeat split|].
  destruct cs as [|c cs]; [now repeat split|].
  destruct (IH cs) as (Hun & Hadd & Happ & He & Hd).
  cbn [loose_part_commands map select].
  rewrite unlinks_app, modifier_adds_app, modifier_applies_app, exports_app,
    deletions_app, Hun, Hadd, Happ, He, Hd.
  destruct keep; repeat split.
Qed.

(** C10. With the preview and the separation both switched on,
    [create_object] synthesises the unit and then runs the whole separation
    on its object: it issues the split into loose parts, and then for each
    candidate, at its turn, either the unlinking (the test failed) or the
    three commands that add a SOLIDIFY modifier, set its thickness to twice
    the extrusion and apply it (the test succeeded).  It returns the counter
    unchanged; no export and no deletion is among the commands.  The same
    call outside a preview issues the very same commands and then those of
    [export_object] on the candidates kept: the export step is the only
    difference.  In a run that gets past the font stage this is what happens
    to the first unit, and to no other. *)
Theorem preview_keeps_separation (host : Host)
    (props : TextMeshCreatorProperties) (number : Z) (text : string)
    (font : VectorFont) (t : trace) :
  properties.separate_by_loose_parts props = true ->
  is_preview props = true ->
  (exists o d_syn,
     synthesize host text font props t = (Ok o, d_syn)
     /\ let h := (t ++ d_syn) ++ [MeshSeparate [o] "LOOSE"] in
        let cs := o :: selected_objects host h in
        let mask := loose_part_mask host (thickness props) cs h in
        let d_sep :=
          MeshSeparate [o] "LOOSE"
          :: loose_part_commands (thickness props) mask cs in
        separate_by_loose_parts host o (thickness props) (t ++ d_syn)
        = (Ok (select mask cs), d_sep)
        /\ create_object host number text font props t
           = (Ok number, d_syn ++ d_sep)
        /\ unlinks d_sep = select (map negb mask) cs
        /\ modifier_adds d_sep = select mask cs
        /\ modifier_applies d_sep = select mask cs
        /\ exports (d_syn ++ d_sep) = [] /\ deletions (d_syn ++ d_sep) = []
        /\ create_object host number text font (with_preview false props) t
           = (let (r, d_exp) :=
                export_object host number text (export_path props)
                  (select mask cs) (t ++ d_syn ++ d_sep) in
              (r, d_syn ++ d_sep ++ d_exp)))
  /\ (forall first rest,
        fst (partition (separate_by props) (strings props) [])
        = Ok (first :: rest) ->
        PyStr.strip (font_path props) <> "" ->
        fonts_load host t (font_path props) = Ok font ->
        exists d,
          create_object host (increment_from props) first font props
            (t ++ [FontsLoad (font_path props) (Ok font)])
          = (Ok (increment_from props), d)
          /\ execute host props t
             = (Ok FINISHED, FontsLoad (font_path props) (Ok font) :: d)).
Proof.
  intros Hloose Hpre. split.
  - destruct (synthesize_run host text font props t)
      as (o & d_syn & Hsyn & _ & He & Hd & _).
    exists o, d_syn. split; [exact Hsyn|]. cbv zeta.
    set (h := (t ++ d_syn) ++ [MeshSeparate [o] "LOOSE"]).
    set (cs := o :: selected_objects host h).
    set (mask := loose_part_mask host (thickness props) cs h).
    pose proof (separate_by_loose_parts_exact host o (thickness props)
                  (t ++ d_syn)) as Hsep.
    cbv zeta in Hsep. fold h in Hsep. fold cs in Hsep. fold mask in Hsep.
    destruct (loose_part_commands_observed (thickness props) mask cs)
      as (Hun & Hadd & Happ & He' & Hd').
    split; [exact Hsep|].
    assert (Hsyn' : synthesize host text font (with_preview false props) t
                    = (Ok o, d_syn)) by exact Hsyn.
    assert (Hsep' : separate_by_loose_parts host o
                      (thickness (with_preview false props)) (t ++ d_syn)
                    = (Ok (select mask cs),
                       MeshSeparate [o] "LOOSE"
                       :: loose_part_commands (thickness props) mask cs))
      by exact Hsep.
    split; [|split; [exact Hun|split; [exact Hadd|split; [exact Happ|]]]].
    + unfold create_object. rewrite bind_unfold, Hsyn, Hloose.
      rewrite bind_unfold, Hsep, Hpre. unfold ret. now rewrite app_nil_r.
    + split; [rewrite exports_app, He; exact He'|].
      split; [rewrite deletions_app, Hd; exact Hd'|].
      unfold create_object. rewrite bind_unfold, Hsyn'.
      cbn [properties.separate_by_loose_parts with_preview].
      rewrite Hloose, bind_unfold, Hsep'.
      cbn [is_preview with_preview export_path].
      rewrite <- app_assoc.
      destruct (export_object host number text (export_path props)
                  (select mask cs) _) as [r d_exp].
      reflexivity.
  - intros first rest Hpart Hpath Hload.
    destruct (create_object_preview host (increment_from props) first font props
                (t ++ [FontsLoad (font_path props) (Ok font)]) Hpre)
      as (d & Hrun & _).
    exists d. split; [exact Hrun|].
    rewrite execute_run, load_font_run.
    apply String.eqb_neq in Hpath. rewrite Hpath. cbv zeta.
    rewrite Hload, Hpart, Hpre.
    cbn [preview_truncate index nth_error bind ret fst app].
    rewrite process_units_cons, bind_unfold, Hrun.
    cbn [process_units ret]. now rewrite app_nil_r.
Qed.

Lemma preview_keeps_separation_witness :
  exists d_syn,
    create_object (Demo.host "" []) 7 "i" 0
      (Demo.props "i" "NONE" "a.ttf" true true 7) []
    = (Ok 7%Z,
       d_syn ++ [MeshSeparate [13] "LOOSE";
                 Unlink 13;
                 ModifierAdd 26 "SOLIDIFY";
                 SetAttr (OfModifier 26 0) "thickness" (VFloat 1%float);
                 ModifierApply 26 0]).
Proof.
  destruct (preview_keeps_separation (Demo.host "" [])
              (Demo.props "i" "NONE" "a.ttf" true true 7) 7 "i" 0 []
              eq_refl eq_refl)
    as ((o & d_syn & Hsyn & _ & Hrun & _) & _).
  vm_compute in Hsyn. inversion Hsyn; subst o d_syn.
  exists (snd (synthesize (Demo.host "" []) "i" 0
                 (Demo.props "i" "NONE" "a.ttf" true true 7) [])).
  vm_compute in Hrun |- *. exact Hrun.
Defined.

(** ** The export scenario *)

(** Outside a preview, a loop all of whose exports succeeded went through
    every unit and numbered the files consecutively. *)
Lemma process_units_successes (host : Host) (font : VectorFont)
    (props : TextMeshCreatorProperties) :
  is_preview props = false ->
  forall (units : list string) (number : Z) (t : trace),
  Forall (fun x => snd x = Ok tt)
    (exports (snd (process_units host (Some font) props units number t))) ->
  exists d,
    process_units host (Some font) props units number t
    = (Ok (number + Z.of_nat (List.length units))%Z, d)
    /\ exports d
       = map (fun p => (p, Ok tt))
           (numbered_paths host (export_path props) number units
              (map (fun _ => Ok tt) units)).
Proof.
  intros Hpre units.
  induction units as [|u rest IH]; intros number t Hall.
  - exists []. cbn. split; [|reflexivity]. unfold ret. now rewrite Z.add_0_r.
  - rewrite process_units_cons, bind_unfold in Hall |- *.
    destruct (create_object_export host number u font props t Hpre)
      as (sel & d0 & Hrun & _ & He & _).
    cbv zeta in Hrun. rewrite Hrun in Hall |- *. clear Hrun.
    destruct (export_scene_fbx host (t ++ d0) sel _) as [[]|e].
    + cbn [app] in Hall |- *.
      destruct (process_units host (Some font) props rest (number + 1)%Z _)
        as [r d2] eqn:Hrest.
      cbn [snd] in Hall. rewrite !exports_app, He in Hall.
      cbn in Hall. inversion Hall as [|x l _ Hall2]; subst.
      match type of Hrest with
      | process_units _ _ _ _ _ ?h = _ => specialize (IH (number + 1)%Z h)
      end.
      rewrite Hrest in IH. destruct (IH Hall2) as (d & Heq & Hex).
      inversion Heq; subst r d2.
      eexists. split.
      * f_equal. f_equal. cbn [List.length]. lia.
      * rewrite !exports_app, He, Hex. reflexivity.
    + exfalso.
      destruct e;
        [destruct (process_units host (Some font) props rest number _)
           as [r d']|..];
        cbn [snd] in Hall; rewrite !exports_app, He in Hall; cbn in Hall;
        inversion Hall as [|x l Hx _]; discriminate Hx.
Qed.

(** C8. [export_object] calls the export once, on the path that joins the
    directory with the counter, a hyphen, the name and ".fbx", whatever the
    export then does.  For the text "AB" split by character, outside a
    preview, counting from 0: in a run whose font path is not blank, whose
    font loads and whose exports all succeed, there are exactly two export
    calls, to "0-A.fbx" and then to "1-B.fbx" in the output directory, and
    the counter ends at 2. *)
Theorem export_file_names (host : Host) :
  (forall (number : Z) (name dirpath : string) (object : list Object)
          (t : trace),
      let path :=
        path_join host dirpath
          (PyStr.of_int number ++ "-" ++ name ++ ".fbx")%string in
      exports (snd (export_object host number name dirpath object t))
      = [(path, export_scene_fbx host t object path)])
  /\ (forall (props : TextMeshCreatorProperties) (t : trace)
             (font : VectorFont),
        strings props = "AB" ->
        separate_by props = "CHARACTER" ->
        is_preview props = false ->
        increment_from props = 0%Z ->
        PyStr.strip (font_path props) <> "" ->
        fonts_load host t (font_path props) = Ok font ->
        Forall (fun x => snd x = Ok tt) (exports (snd (execute host props t))) ->
        exists d,
          execute host props t
          = (Ok FINISHED, FontsLoad (font_path props) (Ok font) :: d)
          /\ process_units host (Some font) props ["A"; "B"] 0
               (t ++ [FontsLoad (font_path props) (Ok font)])
             = (Ok 2%Z, d)
          /\ exports d
             = [(path_join host (export_path props) "0-A.fbx", Ok tt);
                (path_join host (export_path props) "1-B.fbx", Ok tt)]).
Proof.
  split.
  - intros number name dirpath object t. cbv zeta.
    rewrite export_object_run. cbv zeta.
    destruct (export_scene_fbx host t object _) as [u|e]; [reflexivity|].
    destruct e; reflexivity.
  - intros props t font Htext Hmode Hpre Hstart Hpath Hload Hall.
    assert (Hrun : execute host props t
                   = match process_units host (Some font) props ["A"; "B"] 0
                             (t ++ [FontsLoad (font_path props) (Ok font)]) with
                     | (Ok _, d) =>
                         (Ok FINISHED, [FontsLoad (font_path props) (Ok font)] ++ d)
                     | (Raise e, d) =>
                         (Raise e, [FontsLoad (font_path props) (Ok font)] ++ d)
                     end).
    { rewrite execute_run, load_font_run.
      apply String.eqb_neq in Hpath. rewrite Hpath. cbv zeta. rewrite Hload.
      rewrite Hmode, Htext, Hpre, Hstart. reflexivity. }
    rewrite Hrun in Hall |- *.
    destruct (process_units_successes host font props Hpre ["A"; "B"] 0%Z
                (t ++ [FontsLoad (font_path props) (Ok font)]))
      as (d & Hloop & Hex).
    + destruct (process_units host (Some font) props ["A"; "B"] 0 _)
        as [[n|e] d]; cbn [snd app] in Hall |- *; exact Hall.
    + rewrite Hloop. exists d. split; [reflexivity|]. split; [reflexivity|].
      exact Hex.
Qed.

Lemma export_file_names_witness :
  exists d,
    execute (Demo.host "" []) (Demo.props "AB" "CHARACTER" "a.ttf" false false 0) []
    = (Ok FINISHED, FontsLoad "a.ttf" (Ok 0) :: d)
    /\ exports d = [("/out/0-A.fbx", Ok tt); ("/out/1-B.fbx", Ok tt)].
Proof.
  assert (Hpath : PyStr.strip "a.ttf" <> "") by discriminate.
  assert (Hall : Forall (fun x => snd x = @Ok unit tt)
                   (exports (snd (execute (Demo.host "" [])
                      (Demo.props "AB" "CHARACTER" "a.ttf" false false 0) []))))
    by (vm_compute; repeat constructor).
  destruct (proj2 (export_file_names (Demo.host "" []))
              (Demo.props "AB" "CHARACTER" "a.ttf" false false 0) [] 0
              eq_refl eq_refl eq_refl eq_refl Hpath eq_refl Hall)
    as (d & Hrun & _ & He).
  exists d. split; [exact Hrun|exact He].
Defined.

(** With the same text, mode and start, two runs that do not end that way:
    when the font cannot be loaded the run is cancelled and nothing is
    exported; when the export of "A" fails, "B" is exported under the number
    0 again. *)
Lemma export_file_names_counterexample :
  let props := Demo.props "AB" "CHARACTER" "a.ttf" false false 0 in
  (strings props = "AB" /\ separate_by props = "CHARACTER"
   /\ is_preview props = false /\ increment_from props = 0%Z)
  /\ fst (execute (Demo.host "a.ttf" []) props []) = Ok CANCELLED
  /\ exports (snd (execute (Demo.host "a.ttf" []) props [])) = []
  /\ map fst (exports (snd (execute (Demo.host "" ["/out/0-A.fbx"]) props [])))
     = ["/out/0-A.fbx"; "/out/0-B.fbx"]
  /\ map fst (exports (snd (execute (Demo.host "" ["/out/0-A.fbx"]) props [])))
     <> ["/out/0-A.fbx"; "/out/1-B.fbx"].
Proof.
  cbv zeta. split; [repeat split|].
  split; [reflexivity|]. split; [reflexivity|].
  split; [vm_compute; reflexivity|].
  vm_compute. discriminate.
Qed.

(** ** An export that raises *)

(** A unit either ends normally, and then any export it made that raised
    raised [RuntimeError]; or it ends with the exception of its export,
    right after the deletion of what it tried to export. *)
Lemma create_object_outcome (host : Host) (number : Z) (text : string)
    (font : VectorFont) (props : TextMeshCreatorProperties) (t : trace) :
  (exists n1 d1,
     create_object host number text font props t = (Ok n1, d1)
     /\ processed_units d1 = [text]
     /\ forall p e, In (p, Raise e) (exports d1) -> exists msg, e = RuntimeError msg)
  \/ (exists e0 sel p0 d0,
        create_object host number text font props t
        = (Raise e0, d0 ++ [ExportFbx sel p0 (Raise e0); ObjectDelete sel])
        /\ processed_units d0 = [text] /\ exports d0 = []
        /\ forall msg, e0 <> RuntimeError msg).
Proof.
  destruct (is_preview props) eqn:Hpre.
  - destruct (create_object_preview host number text font props t Hpre)
      as (d1 & Hrun & Hu & Hex & _).
    left. exists number, d1. split; [exact Hrun|]. split; [exact Hu|].
    intros p e Hin. rewrite Hex in Hin. destruct Hin.
  - destruct (create_object_export host number text font props t Hpre)
      as (sel & d0 & Hrun & Hu & Hex & _).
    cbv zeta in Hrun.
    destruct (export_scene_fbx host (t ++ d0) sel _) as [[]|e0].
    + left. eexists; eexists. split; [exact Hrun|].
      split; [rewrite processed_units_app, Hu; reflexivity|].
      intros p e Hin. rewrite exports_app, Hex in Hin. cbn in Hin.
      destruct Hin as [Hbad|[]]. discriminate Hbad.
    + destruct e0;
        [left; eexists; eexists; split; [exact Hrun|];
         split; [rewrite processed_units_app, Hu; reflexivity|];
         intros p e Hin; rewrite exports_app, Hex in Hin; cbn in Hin;
         destruct Hin as [Hbad|[]]; inversion Hbad; now exists msg
        |right; eexists; exists sel; eexists; exists d0;
         (split; [exact Hrun|]); (split; [exact Hu|]); (split; [exact Hex|]);
         discriminate ..].
Qed.

(** X9. Whenever an export in the loop raises anything other than
    [RuntimeError], at whichever unit, the exception leaves the loop after
    the cleanup of that unit: the failed export and the deletion of its
    selection are the last two commands, and of the units only those up to
    and including that one were started. *)
Theorem export_error_aborts (host : Host) (font : VectorFont)
    (props : TextMeshCreatorProperties) (p : string) (e : exn) :
  (forall msg, e <> RuntimeError msg) ->
  forall (units : list string) (number : Z) (t : trace),
  In (p, Raise e)
     (exports (snd (process_units host (Some font) props units number t))) ->
  exists pre u rest sel d,
    units = pre ++ u :: rest
    /\ process_units host (Some font) props units number t
       = (Raise e, d ++ [ExportFbx sel p (Raise e); ObjectDelete sel])
    /\ processed_units (d ++ [ExportFbx sel p (Raise e); ObjectDelete sel])
       = pre ++ [u]
    /\ ~ In (p, Raise e) (exports d).
Proof.
  intros He units.
  induction units as [|u rest IH]; intros number t Hin; [destruct Hin|].
  rewrite process_units_cons, bind_unfold in Hin |- *.
  destruct (create_object_outcome host number u font props t)
    as [(n1 & d1 & Hrun & Hu & Hok)|(e0 & sel & p0 & d0 & Hrun & Hu & Hex & He0)];
    rewrite Hrun in Hin |- *.
  - destruct (process_units host (Some font) props rest n1 (t ++ d1))
      as [r d2] eqn:Hrest.
    cbn [snd] in Hin. rewrite exports_app in Hin.
    apply in_app_or in Hin. destruct Hin as [Hbad|Hin].
    { destruct (Hok _ _ Hbad) as [msg ->]. now destruct (He msg). }
    specialize (IH n1 (t ++ d1)). rewrite Hrest in IH.
    destruct (IH Hin) as (pre & u' & rest' & sel & d & Hunits & Heq & Hpu & Hnot).
    inversion Heq; subst r d2.
    exists (u :: pre), u', rest', sel, (d1 ++ d).
    rewrite <- app_assoc. split; [now rewrite Hunits|]. split; [reflexivity|].
    split.
    + rewrite processed_units_app, Hu, Hpu. reflexivity.
    + rewrite exports_app. intros Hbad. apply in_app_or in Hbad.
      destruct Hbad as [Hbad|Hbad]; [|now apply Hnot].
      destruct (Hok _ _ Hbad) as [msg ->]. now destruct (He msg).
  - cbn [snd] in Hin. rewrite exports_app, Hex in Hin. cbn in Hin.
    destruct Hin as [Hbad|[]]. inversion Hbad; subst p0 e0.
    exists [], u, rest, sel, d0.
    split; [reflexivity|]. split; [reflexivity|].
    split; [rewrite processed_units_app, Hu; reflexivity|].
    now rewrite Hex.
Qed.

Lemma export_error_aborts_witness :
  exists pre u rest sel d,
    ["A"; "B"; "C"] = pre ++ u :: rest
    /\ process_units (Demo.breaking ["/out/1-B.fbx"] (OtherError "OSError"))
         (Some 0) (Demo.props "ABC" "CHARACTER" "a.ttf" false false 0)
         ["A"; "B"; "C"] 0 []
       = (Raise (OtherError "OSError"),
          d ++ [ExportFbx sel "/out/1-B.fbx" (Raise (OtherError "OSError"));
                ObjectDelete sel])
    /\ processed_units
         (d ++ [ExportFbx sel "/out/1-B.fbx" (Raise (OtherError "OSError"));
                ObjectDelete sel])
       = pre ++ [u].
Proof.
  assert (Hin : In ("/out/1-B.fbx", @Raise unit (OtherError "OSError"))
                  (exports (snd (process_units
                     (Demo.breaking ["/out/1-B.fbx"] (OtherError "OSError"))
                     (Some 0)
                     (Demo.props "ABC" "CHARACTER" "a.ttf" false false 0)
                     ["A"; "B"; "C"] 0 []))))
    by (vm_compute; right; left; reflexivity).
  assert (He : forall msg, OtherError "OSError" <> RuntimeError msg)
    by discriminate.
  destruct (export_error_aborts
              (Demo.breaking ["/out/1-B.fbx"] (OtherError "OSError")) 0
              (Demo.props "ABC" "CHARACTER" "a.ttf" false false 0)
              "/out/1-B.fbx" (OtherError "OSError") He
              ["A"; "B"; "C"] 0%Z [] Hin)
    as (pre & u & rest & sel & d & Hunits & Hrun & Hpu & _).
  exists pre, u, rest, sel, d. split; [exact Hunits|]. split; [exact Hrun|].
  exact Hpu.
Defined.

Example run_export_error :
  let run := process_units (Demo.breaking ["/out/1-B.fbx"] (OtherError "OSError"))
               (Some 0) (Demo.props "ABC" "CHARACTER" "a.ttf" false false 0)
               ["A"; "B"; "C"] 0 [] in
  fst run = Raise (OtherError "OSError")
  /\ processed_units (snd run) = ["A"; "B"]
  /\ exports (snd run)
     = [("/out/0-A.fbx", Ok tt);
        ("/out/1-B.fbx", Raise (OtherError "OSError"))]
  /\ List.length (deletions (snd run)) = 2.
Proof. vm_compute. repeat split. Qed.

(** ** A separation that keeps nothing *)

(** X11. When no candidate passes the position test at its turn, the
    separation unlinks every candidate and returns the empty list, and
    outside a preview the unit is exported all the same: the export is
    called with an empty selection under the unit's file name, the empty
    selection is deleted, and if the export succeeds the counter moves on. *)
Theorem nothing_kept_still_exports (host : Host)
    (props : TextMeshCreatorProperties) (number : Z) (text : string)
    (font : VectorFont) (t : trace) (o : Object) (d_syn : trace) :
  properties.separate_by_loose_parts props = true ->
  is_preview props = false ->
  synthesize host text font props t = (Ok o, d_syn) ->
  let h := (t ++ d_syn) ++ [MeshSeparate [o] "LOOSE"] in
  let cs := o :: selected_objects host h in
  Forall (eq false) (loose_part_mask host (thickness props) cs h) ->
  let d0 := d_syn ++ MeshSeparate [o] "LOOSE" :: map Unlink cs in
  let path := path_join host (export_path props) (file_name number text) in
  let outcome := export_scene_fbx host (t ++ d0) [] path in
  separate_by_loose_parts host o (thickness props) (t ++ d_syn)
  = (Ok [], MeshSeparate [o] "LOOSE" :: map Unlink cs)
  /\ create_object host number text font props t
     = (match outcome with
        | Ok _ => Ok (number + 1)%Z
        | Raise (RuntimeError _) => Ok number
        | Raise e => Raise e
        end,
        d0 ++ ExportFbx [] path outcome
           :: match outcome with
              | Raise (RuntimeError msg) => [Print (RuntimeError msg)]
              | _ => []
              end ++ [ObjectDelete []]).
Proof.
  intros Hloose Hpre Hsyn h cs Hnone d0 path outcome.
  pose proof (separate_by_loose_parts_exact host o (thickness props)
                (t ++ d_syn)) as Hsep.
  cbv zeta in Hsep. fold h in Hsep. fold cs in Hsep.
  destruct (loose_part_mask_none host (thickness props) cs h Hnone)
    as [Hsel Hcmd].
  rewrite Hsel, Hcmd in Hsep.
  split; [exact Hsep|].
  unfold create_object. rewrite bind_unfold, Hsyn, Hloose.
  rewrite bind_unfold, Hsep, Hpre.
  rewrite export_object_run. cbv zeta.
  unfold outcome, path, d0, file_name.
  rewrite <- !app_assoc.
  destruct (export_scene_fbx host _ [] _) as [u|e];
    [now rewrite <- ?app_assoc|].
  destruct e; now rewrite <- ?app_assoc.
Qed.

Lemma nothing_kept_still_exports_witness :
  exists d0,
    create_object (Demo.uniform 2 None None) 4 "i" 0
      (Demo.props "i" "NONE" "a.ttf" true false 4) []
    = (Ok 5%Z,
       d0 ++ [MeshSeparate [13] "LOOSE"; Unlink 13; Unlink 26;
              ExportFbx [] "/out/4-i.fbx" (Ok tt); ObjectDelete []]).
Proof.
  assert (Hsyn : synthesize (Demo.uniform 2 None None) "i" 0
                   (Demo.props "i" "NONE" "a.ttf" true false 4) []
                 = (Ok 13,
                    snd (synthesize (Demo.uniform 2 None None) "i" 0
                           (Demo.props "i" "NONE" "a.ttf" true false 4) [])))
    by (vm_compute; reflexivity).
  assert (Hnone : Forall (eq false)
            (loose_part_mask (Demo.uniform 2 None None) 0.5%float
               (13 :: selected_objects (Demo.uniform 2 None None)
                        (([] ++ snd (synthesize (Demo.uniform 2 None None) "i" 0
                                       (Demo.props "i" "NONE" "a.ttf" true false 4)
                                       []))
                         ++ [MeshSeparate [13] "LOOSE"]))
               (([] ++ snd (synthesize (Demo.uniform 2 None None) "i" 0
                              (Demo.props "i" "NONE" "a.ttf" true false 4) []))
                ++ [MeshSeparate [13] "LOOSE"])))
    by (vm_compute; repeat constructor).
  destruct (nothing_kept_still_exports (Demo.uniform 2 None None)
              (Demo.props "i" "NONE" "a.ttf" true false 4) 4 "i" 0 [] 13 _
              eq_refl eq_refl Hsyn Hnone)
    as [_ Hrun].
  exists (snd (synthesize (Demo.uniform 2 None None) "i" 0
                 (Demo.props "i" "NONE" "a.ttf" true false 4) [])).
  vm_compute in Hrun |- *. exact Hrun.
Defined.
